(** * cord19q ETL: a shallow embedding of [etl/execute.py]

    The module [execute] turns the metadata rows of a literature corpus and
    their optional side-car documents into two relations, [articles] and
    [sections], of an SQLite store.  This development embeds the functions of
    that module and proves properties of them.

    Conventions.
    - A Python [str] is the list of its code points ([N]); [bytes] is a list of
      numbers below 256.
    - A computation that may raise returns a [res]; a computation that also
      prints or touches the store is a function on a [world].
    - Library primitives whose full Unicode tables are not reproduced
      ([str.lower] and [str.isdigit] beyond ASCII, [dateutil]'s parser, [int]
      on a string) are variables of the section that holds the embedding. *)

From Stdlib Require Import String Ascii NArith ZArith Arith Bool List Lia.
From Stdlib Require Import Permutation.
Import ListNotations.

Set Warnings "-register-all".

Open Scope N_scope.

(** ** Python values *)

Module Py.

Definition char := N.
Definition str := list char.

(** An ASCII literal of the source as a [str]. *)
Definition lit (s : string) : str := map N_of_ascii (list_ascii_of_string s).

Inductive exn :=
| KeyError | IndexError | TypeError | ValueError | AttributeError
| UnicodeEncodeError | JSONDecodeError | ParserError
| OperationalError | IntegrityError | ProgrammingError | InterfaceError
| OverflowError.

Inductive res (A : Type) :=
| Ok (a : A)
| Raise (e : exn).
Arguments Ok {A} a.
Arguments Raise {A} e.

Definition bind {A B} (m : res A) (k : A -> res B) : res B :=
  match m with
  | Ok a => k a
  | Raise e => Raise e
  end.

Definition fmap {A B} (f : A -> B) (m : res A) : res B :=
  bind m (fun a => Ok (f a)).

(** [a == b] for two strings. *)
Fixpoint str_eqb (a b : str) : bool :=
  match a, b with
  | [], [] => true
  | c :: a', d :: b' => (c =? d) && str_eqb a' b'
  | _, _ => false
  end.

(** [s.startswith(p)] *)
Fixpoint startswith (s p : str) : bool :=
  match p, s with
  | [], _ => true
  | _ :: _, [] => false
  | c :: p', d :: s' => (c =? d) && startswith s' p'
  end.

(** [p in s] for two strings: [p] occurs in [s] as a substring. *)
Fixpoint contains (p s : str) : bool :=
  startswith s p ||
  match s with
  | [] => false
  | _ :: s' => contains p s'
  end.

(** [sep.join(parts)] *)
Fixpoint join (sep : str) (parts : list str) : str :=
  match parts with
  | [] => []
  | [p] => p
  | p :: ps => p ++ sep ++ join sep ps
  end.

(** Truth value of a string: the empty string is false. *)
Definition truthy (s : str) : bool :=
  match s with
  | [] => false
  | _ :: _ => true
  end.

(** [str.isspace] of one character, which is also what [\s] matches in a
    pattern over [str]. *)
Definition isspace (c : char) : bool :=
  ((9 <=? c) && (c <=? 13)) || ((28 <=? c) && (c <=? 32)) ||
  (c =? 133) || (c =? 160) || (c =? 5760) ||
  ((8192 <=? c) && (c <=? 8202)) || (c =? 8232) || (c =? 8233) ||
  (c =? 8239) || (c =? 8287) || (c =? 12288).

Definition is_ascii (c : char) : bool := c <? 128.

Definition ascii_lower (c : char) : char :=
  if (65 <=? c) && (c <=? 90) then c + 32 else c.

Definition ascii_isdigit (c : char) : bool := (48 <=? c) && (c <=? 57).

(** [str(n)] for a natural number: its decimal digits. *)
Fixpoint decimal_fuel (fuel : nat) (n : N) (acc : str) : str :=
  match fuel with
  | O => acc
  | S fuel' =>
      let acc' := (48 + n mod 10) :: acc in
      if n <? 10 then acc' else decimal_fuel fuel' (n / 10) acc'
  end.

Definition decimal (n : N) : str := decimal_fuel (S (N.to_nat (N.log2 n))) n [].

(** [str(z)] for an integer. *)
Definition str_of_int (z : Z) : str :=
  if (z <? 0)%Z then lit "-" ++ decimal (Z.to_N (- z)) else decimal (Z.to_N z).

(** [try: m except: h] for a computation without effects. *)
Definition try_res {A} (m : res A) (h : exn -> res A) : res A :=
  match m with
  | Ok a => Ok a
  | Raise e => h e
  end.

(** A loop that threads its variables through the elements of [l]. *)
Fixpoint for_res {A S} (l : list A) (body : S -> A -> res S) (s : S) : res S :=
  match l with
  | [] => Ok s
  | a :: l' => bind (body s a) (for_res l' body)
  end.

(** A list comprehension whose element expression may raise. *)
Fixpoint map_res {A B} (f : A -> res B) (l : list A) : res (list B) :=
  match l with
  | [] => Ok []
  | a :: l' => bind (f a) (fun b => bind (map_res f l') (fun bs => Ok (b :: bs)))
  end.

(** A [datetime.datetime], as [dateutil] returns it. *)
Record datetime := mkdatetime {
  dt_year : Z; dt_month : Z; dt_day : Z;
  dt_hour : Z; dt_minute : Z; dt_second : Z
}.

(** The objects the module handles: cells of a row, the content of a parsed
    JSON document, section texts. *)
Inductive obj :=
| PyNone
| PyBool (b : bool)
| PyInt (n : Z)
| PyStr (s : str)
| PyList (l : list obj)
| PyDict (m : list (str * obj))
| PyDate (d : datetime).

(** Truth value of an object, as [if value] tests it. *)
Definition is_true (v : obj) : bool :=
  match v with
  | PyNone => false
  | PyBool b => b
  | PyInt n => negb (n =? 0)%Z
  | PyStr s => truthy s
  | PyList l => match l with [] => false | _ :: _ => true end
  | PyDict m => match m with [] => false | _ :: _ => true end
  | PyDate _ => true
  end.

(** [d[key]] for a dict kept as the list of its items, in insertion order. *)
Fixpoint dict_get {A} (d : list (str * A)) (key : str) : res A :=
  match d with
  | [] => Raise KeyError
  | (k, v) :: d' => if str_eqb k key then Ok v else dict_get d' key
  end.

(** [row[x]] for a tuple or a list. *)
Definition item {A} (row : list A) (x : nat) : res A :=
  match nth_error row x with
  | Some v => Ok v
  | None => Raise IndexError
  end.

(** [o[key]] for a string key: only a dict has string subscripts. *)
Definition subscript (o : obj) (key : str) : res obj :=
  match o with
  | PyDict m => dict_get m key
  | _ => Raise TypeError
  end.

(** [for x in o]: the elements a loop over [o] visits. *)
Definition iterate (o : obj) : res (list obj) :=
  match o with
  | PyList l => Ok l
  | PyDict m => Ok (map (fun kv => PyStr (fst kv)) m)
  | PyStr s => Ok (map (fun c => PyStr [c]) s)
  | _ => Raise TypeError
  end.

(** [enumerate(l)] *)
Definition enumerate {A} (l : list A) : list (nat * A) :=
  combine (seq 0 (List.length l)) l.

(** [posixpath.join(a, b)] for one more component. *)
Definition path_join2 (path b : str) : str :=
  if startswith b (lit "/") then b
  else if negb (truthy path) || startswith (rev path) (lit "/") then path ++ b
  else path ++ lit "/" ++ b.

(** [os.path.join(a, *p)] *)
Definition path_join (a : str) (p : list str) : str := fold_left path_join2 p a.

End Py.

Notation "x <- m ;; k" := (Py.bind m (fun x => k))
  (at level 61, m at next level, right associativity).

(** ** UTF-8: [str.encode('utf-8')] *)

Module Utf8.
Import Py.

Definition cont (x : N) : N := 128 + x mod 64.

(** The bytes of one code point.  A surrogate (and a number that is no code
    point) cannot be encoded. *)
Definition encode_char (c : char) : res (list N) :=
  if c <? 128 then Ok [c]
  else if c <? 2048 then Ok [192 + c / 64; cont c]
  else if (55296 <=? c) && (c <=? 57343) then Raise UnicodeEncodeError
  else if c <? 65536 then Ok [224 + c / 4096; cont (c / 64); cont c]
  else if c <? 1114112 then
    Ok [240 + c / 262144; cont (c / 4096); cont (c / 64); cont c]
  else Raise UnicodeEncodeError.

Fixpoint encode (s : str) : res (list N) :=
  match s with
  | [] => Ok []
  | c :: s' =>
      b <- encode_char c ;;
      bs <- encode s' ;;
      Ok (b ++ bs)
  end.

(** A string that UTF-8 can encode: text as a decoder yields it holds no
    lone surrogate. *)
Definition encodable (s : str) : bool :=
  match encode s with
  | Ok _ => true
  | Raise _ => false
  end.

End Utf8.

(** ** SHA-1: [hashlib.sha1(data).hexdigest()] *)

Module Sha1.

Definition w32 (x : N) : N := x mod 4294967296.

Definition add32 (a b : N) : N := w32 (a + b).

Definition rotl (n x : N) : N :=
  w32 (N.lor (N.shiftl x n) (N.shiftr x (32 - n))).

Definition not32 (x : N) : N := N.lxor x 4294967295.

(** Big-endian bytes of a number, [n] of them. *)
Fixpoint be_bytes (n : nat) (x : N) : list N :=
  match n with
  | O => []
  | S n' => be_bytes n' (x / 256) ++ [x mod 256]
  end.

Definition be_word (bs : list N) : N :=
  fold_left (fun acc b => acc * 256 + b) bs 0.

(** The message followed by the bit 1, zeros and its length in bits, a
    multiple of 64 bytes in all. *)
Definition pad (msg : list N) : list N :=
  let len := N.of_nat (length msg) in
  let zeros := N.to_nat ((119 - len mod 64) mod 64) in
  msg ++ [128] ++ repeat 0 zeros ++ be_bytes 8 (8 * len).

Fixpoint chunks (fuel n : nat) (l : list N) : list (list N) :=
  match fuel, l with
  | O, _ | _, [] => []
  | S fuel', _ => firstn n l :: chunks fuel' n (skipn n l)
  end.

(** The message schedule, latest word first: [w] holds W(t-1), W(t-2), ... *)
Fixpoint expand (n : nat) (w : list N) : list N :=
  match n with
  | O => w
  | S n' =>
      let x := N.lxor (N.lxor (nth 2 w 0) (nth 7 w 0))
                      (N.lxor (nth 13 w 0) (nth 15 w 0)) in
      expand n' (rotl 1 x :: w)
  end.

Definition schedule (block : list N) : list N :=
  rev (expand 64 (rev (map be_word (chunks 16 4 block)))).

Definition f_t (t : nat) (b c d : N) : N :=
  if (t <? 20)%nat then N.lor (N.land b c) (N.land (not32 b) d)
  else if (t <? 40)%nat then N.lxor (N.lxor b c) d
  else if (t <? 60)%nat then
    N.lor (N.lor (N.land b c) (N.land b d)) (N.land c d)
  else N.lxor (N.lxor b c) d.

Definition k_t (t : nat) : N :=
  if (t <? 20)%nat then 1518500249
  else if (t <? 40)%nat then 1859775393
  else if (t <? 60)%nat then 2400959708
  else 3395469782.

Definition state := (N * N * N * N * N)%type.

Definition round (s : state) (tw : nat * N) : state :=
  let '(a, b, c, d, e) := s in
  let '(t, w) := tw in
  let temp := add32 (add32 (add32 (add32 (rotl 5 a) (f_t t b c d)) e) (k_t t)) w in
  (temp, a, rotl 30 b, c, d).

Definition compress (h : state) (block : list N) : state :=
  let w := schedule block in
  let '(a, b, c, d, e) := fold_left round (combine (seq 0 80) w) h in
  let '(h0, h1, h2, h3, h4) := h in
  (add32 h0 a, add32 h1 b, add32 h2 c, add32 h3 d, add32 h4 e).

Definition init : state :=
  (1732584193, 4023233417, 2562383102, 271733878, 3285377520).

Definition digest (msg : list N) : list N :=
  let p := pad msg in
  let '(h0, h1, h2, h3, h4) :=
    fold_left compress (chunks (length p) 64 p) init in
  be_bytes 4 h0 ++ be_bytes 4 h1 ++ be_bytes 4 h2 ++ be_bytes 4 h3 ++ be_bytes 4 h4.

Definition hex_digit (x : N) : N := if x <? 10 then 48 + x else 87 + x.

Definition hex (bs : list N) : Py.str :=
  flat_map (fun b => [hex_digit (b / 16); hex_digit (b mod 16)]) bs.

Definition hexdigest (msg : list N) : Py.str := hex (digest msg).

End Sha1.


(** ** Regular expressions: the fragment of [re] the module uses

    A pattern is a sequence of atoms; a star ranges over one character class
    and is greedy or lazy; one group is captured.  Matching backtracks as the
    library's engine does: a greedy star tries the longest run first, a lazy
    star the shortest. *)

Module Re.
Import Py.

Inductive atom :=
| Lit (c : char)                 (* one character *)
| Greedy (p : char -> bool)      (* [p*] *)
| Lazy (p : char -> bool)        (* [p*?] *)
| Open                           (* ( *)
| Close.                         (* ) *)

Definition push (rec : bool) (c : char) (acc : str) : str :=
  if rec then c :: acc else acc.

(** [exec pat s rec acc]: match [pat] at the start of [s].  [rec] tells
    whether the group is open, [acc] is what it has captured so far, latest
    character first.  The result is the captured text and the input left. *)
Fixpoint exec (pat : list atom) (s : str) (rec : bool) (acc : str)
  {struct pat} : option (str * str) :=
  match pat with
  | [] => Some (rev acc, s)
  | Lit c :: pat' =>
      match s with
      | d :: s' => if c =? d then exec pat' s' rec (push rec d acc) else None
      | [] => None
      end
  | Open :: pat' => exec pat' s true acc
  | Close :: pat' => exec pat' s false acc
  | Greedy p :: pat' =>
      (fix star (s : str) (acc : str) {struct s} : option (str * str) :=
         match s with
         | d :: s' =>
             if p d then
               match star s' (push rec d acc) with
               | Some r => Some r
               | None => exec pat' s rec acc
               end
             else exec pat' s rec acc
         | [] => exec pat' s rec acc
         end) s acc
  | Lazy p :: pat' =>
      (fix star (s : str) (acc : str) {struct s} : option (str * str) :=
         match exec pat' s rec acc with
         | Some r => Some r
         | None =>
             match s with
             | d :: s' => if p d then star s' (push rec d acc) else None
             | [] => None
             end
         end) s acc
  end.

(** [re.findall(pat, s)] for a pattern with one group: the captures of the
    successive non-overlapping matches, scanning from the left.  [skip]
    counts the characters still covered by the last match. *)
Fixpoint findall_from (pat : list atom) (s : str) (skip : nat) : list str :=
  match s with
  | [] =>
      match skip, exec pat [] false [] with
      | O, Some (g, _) => [g]
      | _, _ => []
      end
  | _ :: s' =>
      match skip with
      | S k => findall_from pat s' k
      | O =>
          match exec pat s false [] with
          | Some (g, rest) =>
              g :: findall_from pat s' (List.length s - List.length rest - 1)
          | None => findall_from pat s' 0
          end
      end
  end.

Definition findall (pat : list atom) (s : str) : list str := findall_from pat s 0.

End Re.

(** ** The SQLite connection

    The store is modelled on the structure of the two statements the module
    issues.  A table keeps the column descriptors it was created with; the
    rows of all tables are kept in one list, in insertion order.  An insert
    binds its parameters before it writes, and fails on the first that
    cannot be bound. *)

Module Sqlite.
Import Py.

Definition schema := list (str * str).

(** A statement: its text as the module builds it, and what it denotes. *)
Inductive statement :=
| CreateTableIfNotExists (sql : str) (name : str) (fields : schema)
| InsertInto (sql : str) (name : str) (columns : list str) (params : list obj).

(** A stored row: the table it belongs to and its cells by column. *)
Definition entry := (str * list (str * obj))%type.

Record connection := mkconnection {
  tables : list (str * schema);
  rows : list entry;
  committed : bool;
  closed : bool
}.

Definition empty : connection := mkconnection [] [] false false.

Definition is_primary_key (ctype : str) : bool := contains (lit "PRIMARY KEY") ctype.

(** What binding one parameter raises, if anything.  The driver binds
    [None], integers of 64 bits, text that UTF-8 can encode, and dates
    through the default adapter. *)
Definition bind_error (v : obj) : option exn :=
  match v with
  | PyList _ | PyDict _ => Some InterfaceError
  | PyStr s =>
      match Utf8.encode s with
      | Ok _ => None
      | Raise e => Some e
      end
  | PyInt n =>
      if ((-9223372036854775808 <=? n) && (n <=? 9223372036854775807))%Z
      then None else Some OverflowError
  | PyNone | PyBool _ | PyDate _ => None
  end.

Definition supported (v : obj) : bool :=
  match bind_error v with
  | None => true
  | Some _ => false
  end.

(** The parameters are bound from left to right: the first that cannot be
    bound gives the exception. *)
Fixpoint bind_errors (params : list obj) : option exn :=
  match params with
  | [] => None
  | v :: rest =>
      match bind_error v with
      | Some e => Some e
      | None => bind_errors rest
      end
  end.

(** Equality of two stored keys. *)
Definition key_eqb (a b : obj) : bool :=
  match a, b with
  | PyStr s, PyStr t => str_eqb s t
  | PyInt x, PyInt y => (x =? y)%Z
  | PyInt x, PyBool y | PyBool y, PyInt x => (x =? (if y then 1 else 0))%Z
  | PyBool x, PyBool y => Bool.eqb x y
  | _, _ => false
  end.

Definition cell (r : list (str * obj)) (column : str) : obj :=
  match dict_get r column with
  | Ok v => v
  | Raise _ => PyNone
  end.

(** A row of table [name] already holds [key] in column [column]. *)
Definition key_taken (stored : list entry) (name column : str) (key : obj) : bool :=
  existsb (fun e => str_eqb (fst e) name && key_eqb (cell (snd e) column) key) stored.

(** The row [r] repeats the primary key of a stored row of table [name]. *)
Definition violates (stored : list entry) (name : str) (fields : schema)
  (r : list (str * obj)) : bool :=
  existsb (fun f => is_primary_key (snd f) && key_taken stored name (fst f) (cell r (fst f)))
          fields.

Fixpoint has_duplicate (l : list str) : bool :=
  match l with
  | [] => false
  | x :: l' => existsb (str_eqb x) l' || has_duplicate l'
  end.

Definition lookup_table (c : connection) (name : str) : option schema :=
  match dict_get (tables c) name with
  | Ok f => Some f
  | Raise _ => None
  end.

(** [db.execute(statement)] *)
Definition execute (c : connection) (st : statement) : res connection :=
  if closed c then Raise ProgrammingError else
  match st with
  | CreateTableIfNotExists _ name fields =>
      match fields with
      | [] => Raise OperationalError
      | _ :: _ =>
          match lookup_table c name with
          | Some _ => Ok c
          | None =>
              if has_duplicate (map fst fields) then Raise OperationalError
              else Ok (mkconnection (tables c ++ [(name, fields)]) (rows c) false false)
          end
      end
  | InsertInto _ name columns params =>
      match lookup_table c name with
      | None => Raise OperationalError
      | Some fields =>
          if negb (forallb (fun col => existsb (fun f => str_eqb (fst f) col) fields) columns)
          then Raise OperationalError
          else if negb (List.length params =? List.length columns)%nat
          then Raise ProgrammingError
          else
            match bind_errors params with
            | Some e => Raise e
            | None =>
                let r := combine columns params in
                if violates (rows c) name fields r then Raise IntegrityError
                else Ok (mkconnection (tables c) (rows c ++ [(name, r)]) false false)
            end
      end
  end.

(** [db.commit()] and [db.close()] *)
Definition commit (c : connection) : res connection :=
  if closed c then Raise ProgrammingError
  else Ok (mkconnection (tables c) (rows c) true false).

Definition close (c : connection) : connection :=
  mkconnection (tables c) (rows c) (committed c) true.

End Sqlite.

(** ** Effects: the connection and the standard output *)

Module World.
Import Py.

Inductive event :=
| Printed (line : str)
    (* [print(line)] *)
| ErrorInserting (key : obj) (ex : exn).
    (* [print("Error inserting row: {}".format(key), ex)] *)

Record world := mkworld {
  db : Sqlite.connection;
  stdout : list event
}.

Definition M (A : Type) : Type := world -> world * res A.

Definition ret {A} (a : A) : M A := fun w => (w, Ok a).

Definition bindM {A B} (m : M A) (k : A -> M B) : M B :=
  fun w =>
    match m w with
    | (w', Ok a) => k a w'
    | (w', Raise e) => (w', Raise e)
    end.

Definition lift {A} (r : res A) : M A := fun w => (w, r).

(** [try: m except Exception as e: h(e)] *)
Definition try_except {A} (m : M A) (h : exn -> M A) : M A :=
  fun w =>
    match m w with
    | (w', Ok a) => (w', Ok a)
    | (w', Raise e) => h e w'
    end.

Definition emit (e : event) : M unit :=
  fun w => (mkworld (db w) (stdout w ++ [e]), Ok tt).

Definition print (line : str) : M unit := emit (Printed line).

Definition db_execute (st : Sqlite.statement) : M unit :=
  fun w =>
    match Sqlite.execute (db w) st with
    | Ok c => (mkworld c (stdout w), Ok tt)
    | Raise e => (w, Raise e)
    end.

Definition db_commit : M unit :=
  fun w =>
    match Sqlite.commit (db w) with
    | Ok c => (mkworld c (stdout w), Ok tt)
    | Raise e => (w, Raise e)
    end.

Definition db_close : M unit :=
  fun w => (mkworld (Sqlite.close (db w)) (stdout w), Ok tt).

Fixpoint for_each {A S} (l : list A) (body : S -> A -> M S) (s : S) : M S :=
  match l with
  | [] => ret s
  | a :: l' => bindM (body s a) (for_each l' body)
  end.

(** The world a run starts in: the old store file is deleted and a new
    connection opened, nothing is printed yet. *)
Definition start : world := mkworld Sqlite.empty [].

End World.

Notation "x <~ m ;; k" := (World.bindM m (fun x => k))
  (at level 61, m at next level, right associativity).
Notation "' p <~ m ;; k" := (World.bindM m (fun x => match x with p => k end))
  (at level 61, p pattern, m at next level, right associativity).

(** ** Stand-ins for the library parameters

    Used to run the embedding on concrete inputs: they cover text whose
    letters are ASCII, decimal numerals and dates written [YYYY-MM-DD]. *)

Module Demo.
Import Py.

(** The ASCII letters are lower-cased, the other characters are kept. *)
Definition unicode_lower (s : str) : str := map ascii_lower s.

Definition unicode_isdigit (c : char) : bool := false.

Definition digits_value (s : str) : Z :=
  fold_left (fun acc c => (acc * 10 + Z.of_N (c - 48))%Z) s 0%Z.

Definition int_of_str (s : str) : res Z :=
  if truthy s && forallb ascii_isdigit s then Ok (digits_value s)
  else Raise ValueError.

Definition parse (s : str) : res datetime :=
  match s with
  | [y1; y2; y3; y4; 45; m1; m2; 45; d1; d2] =>
      let y := digits_value [y1; y2; y3; y4] in
      let m := digits_value [m1; m2] in
      let d := digits_value [d1; d2] in
      if forallb ascii_isdigit [y1; y2; y3; y4; m1; m2; d1; d2]
         && (1 <=? y)%Z && (1 <=? m)%Z && (m <=? 12)%Z && (1 <=? d)%Z && (d <=? 28)%Z
      then Ok (mkdatetime y m d 0 0 0)
      else Raise ParserError
  | _ => Raise ParserError
  end.

End Demo.

(** ** The module [execute] *)

Import Py World.

(** A row of [metadata.csv] as [csv.DictReader] yields it from a line that
    has all its cells: the columns the module reads, each a string (an empty
    cell is the empty string).  The cells are text decoded from the file, so
    none holds a lone surrogate. *)
Record metadata := mkmetadata {
  sha : str;
  source_x : str;
  publish_time : str;
  journal : str;
  authors : str;
  title : str;
  doi : str;
  decoded :
    forallb Utf8.encodable [sha; source_x; publish_time; journal; authors; title; doi] =
    true
}.

(** Articles schema *)
Definition ARTICLES : Sqlite.schema := [
  (lit "Id", lit "TEXT PRIMARY KEY");
  (lit "Source", lit "TEXT");
  (lit "Published", lit "DATETIME");
  (lit "Publication", lit "TEXT");
  (lit "Authors", lit "TEXT");
  (lit "Title", lit "TEXT");
  (lit "Tags", lit "TEXT");
  (lit "Reference", lit "TEXT")
].

(** Sections schema *)
Definition SECTIONS : Sqlite.schema := [
  (lit "Id", lit "INTEGER PRIMARY KEY");
  (lit "Article", lit "TEXT");
  (lit "Text", lit "TEXT");
  (lit "Tags", lit "TEXT")
].

(** [CREATE_TABLE.format(table=table, fields=fields)] *)
Definition CREATE_TABLE (table fields : str) : str :=
  lit "CREATE TABLE IF NOT EXISTS " ++ table ++ lit " (" ++ fields ++ lit ")".

(** [INSERT_ROW.format(table=table, columns=columns, values=values)] *)
Definition INSERT_ROW (table columns values : str) : str :=
  lit "INSERT INTO " ++ table ++ lit " (" ++ columns ++ lit ") VALUES (" ++ values ++ lit ")".

(** The pattern ['\s*([^']*?)\s*'] of [getAuthors]. *)
Definition AUTHORS_RE : list Re.atom := [
  Re.Lit 39; Re.Greedy isspace;
  Re.Open; Re.Lazy (fun c => negb (c =? 39)); Re.Close;
  Re.Greedy isspace; Re.Lit 39
].

(** ["Failed to create table: " + e]: adding an exception to a string raises. *)
Definition str_plus_exn (s : str) (e : exn) : res str := Raise TypeError.

(** ** A small corpus

    Two metadata rows, the first with a [sha], the second without, and one
    side-car document of two paragraphs, which belongs to the second row. *)

Module Scenario.

Definition directory : str := lit "corpus".

Definition row1 : metadata :=
  mkmetadata (lit "abc123") (lit "PMC") (lit "2020") (lit "Nature")
    (lit "['Smith, J.', 'Doe, A.']") (lit "First study") (lit "10.1234/xyz") eq_refl.

Definition row2 : metadata :=
  mkmetadata [] (lit "Elsevier") (lit "not-a-date") (lit "Lancet")
    (lit "Roe, R.") (lit "COVID Study") [] eq_refl.

(** A row that repeats the [sha] of [row1] under another title. *)
Definition row3 : metadata :=
  mkmetadata (lit "abc123") (lit "WHO") [] (lit "BMJ")
    (lit "Poe, E.") (lit "Notes on covid-19") (lit "doi.org/10.1/1") eq_refl.

Definition document : obj :=
  PyDict [(lit "body_text",
           PyList [PyDict [(lit "text", PyStr (lit "On SARS-CoV-2."))];
                   PyDict [(lit "text", PyStr (lit "Methods."))]])].

Definition fs (path : str) : option (res obj) :=
  if str_eqb path (lit "corpus/articles/885480e7e4176d12bcd78170cdffd15c31b5dc03.json")
  then Some (Ok document)
  else None.

(** The side-car of [row2] with a first paragraph that ends in the escape
    [\ud83d], which the JSON decoder turns into a lone surrogate. *)
Definition document_surrogate : obj :=
  PyDict [(lit "body_text",
           PyList [PyDict [(lit "text", PyStr (lit "On SARS-CoV-2 " ++ [55357]))];
                   PyDict [(lit "text", PyStr (lit "Methods."))]])].

Definition fs_surrogate (path : str) : option (res obj) :=
  if str_eqb path (lit "corpus/articles/885480e7e4176d12bcd78170cdffd15c31b5dc03.json")
  then Some (Ok document_surrogate)
  else None.

(** The same corpus with a side-car for [row1] that is no JSON document. *)
Definition fs_malformed (path : str) : option (res obj) :=
  if str_eqb path (lit "corpus/articles/abc123.json")
  then Some (Raise JSONDecodeError)
  else fs path.

End Scenario.

Section Execute.

(** [str.lower] on a string that is not all ASCII. *)
Variable unicode_lower : str -> str.
(** [str.isdigit] of a character beyond ASCII. *)
Variable unicode_isdigit : char -> bool.
(** [int(s)] on a string. *)
Variable int_of_str : str -> res Z.
(** [dateutil.parser.parse] *)
Variable parse : str -> res datetime.
(** The files of the corpus: a path with no file gives [None]; a file gives
    what [json.load] returns or raises on it. *)
Variable fs : str -> option (res obj).

Definition lower (s : str) : str :=
  if forallb is_ascii s then map ascii_lower s else unicode_lower s.

Definition isdigit (s : str) : bool :=
  truthy s &&
  forallb (fun c => if is_ascii c then ascii_isdigit c else unicode_isdigit c) s.

(** [text.lower()] on an object: only a string has the method. *)
Definition obj_lower (text : obj) : res str :=
  match text with
  | PyStr s => Ok (lower s)
  | _ => Raise AttributeError
  end.

(** [int(value)] *)
Definition int (value : obj) : res Z :=
  match value with
  | PyInt n => Ok n
  | PyBool b => Ok (if b then 1 else 0)%Z
  | PyStr s => int_of_str s
  | _ => Raise TypeError
  end.

(** [value == "TRUE"] *)
Definition is_TRUE (value : obj) : bool :=
  match value with
  | PyStr s => str_eqb s (lit "TRUE")
  | _ => false
  end.

Definition values (table : Sqlite.schema) (row : list obj) (columns : list str)
  : res (list obj) :=
  for_res (enumerate columns)
    (fun values xc =>
       let '(x, column) := xc in
       value <- item row x ;;
       ctype <- dict_get table column ;;
       if startswith ctype (lit "INTEGER") then
         n <- (if is_true value then int value else Ok 0%Z) ;;
         Ok (values ++ [PyInt n])
       else if str_eqb ctype (lit "BOOLEAN") then
         Ok (values ++ [PyInt (if is_TRUE value then 1 else 0)])
       else
         Ok (values ++ [value]))
    [].

Definition create (table : Sqlite.schema) (name : str) : M unit :=
  let columns := map (fun nc => fst nc ++ lit " " ++ snd nc) table in
  let create := CREATE_TABLE name (join (lit ", ") columns) in
  try_except
    (db_execute (Sqlite.CreateTableIfNotExists create name table))
    (fun e =>
       _ <~ print create ;;
       msg <~ lift (str_plus_exn (lit "Failed to create table: ") e) ;;
       print msg).

Definition insert (table : Sqlite.schema) (name : str) (row : list obj) : M unit :=
  let columns := map fst table in
  let marks := concat (repeat (lit "?, ") (List.length columns)) in
  let insert :=
    INSERT_ROW name (join (lit ", ") columns) (firstn (List.length marks - 2) marks) in
  try_except
    (params <~ lift (values table row columns) ;;
     db_execute (Sqlite.InsertInto insert name columns params))
    (fun ex =>
       key <~ lift (item row 0) ;;
       emit (ErrorInserting key ex)).

Definition getId (row : metadata) : res str :=
  let uid := sha row in
  if negb (truthy uid) then
    data <- Utf8.encode (title row) ;;
    Ok (Sha1.hexdigest data)
  else Ok uid.




Definition getDate (row : metadata) : res obj :=
  let date := publish_time row in
  if truthy date then
    try_res
      (let date :=
         if isdigit date && (List.length date =? 4)%nat
         then date ++ lit "-01-01" else date in
       d <- parse date ;;
       Ok (PyDate d))
      (fun _ => Ok PyNone)
  else Ok PyNone.

Definition getAuthors (row : metadata) : str :=
  let authors := authors row in
  if truthy authors && contains (lit "[") authors then
    join (lit "; ") (Re.findall AUTHORS_RE authors)
  else authors.

Definition keywords : list str := [lit "2019-ncov"; lit "covid-19"; lit "sars-cov-2"].

Definition getTags (sections : list obj) : res obj :=
  for_res sections
    (fun tags text =>
       low <- obj_lower text ;;
       if existsb (fun x => contains x low) keywords
       then Ok (PyStr (lit "COVID-19"))
       else Ok tags)
    PyNone.

Definition getReference (row : metadata) : str :=
  let text := doi row in
  if truthy text && negb (startswith text (lit "http"))
     && negb (startswith text (lit "doi.org"))
  then lit "https://doi.org/" ++ text
  else text.

Definition read (directory uid : str) : res (list obj) :=
  if truthy uid then
    let article := path_join directory [lit "articles"; uid ++ lit ".json"] in
    match fs article with
    | Some content =>
        data <- content ;;
        body_text <- subscript data (lit "body_text") ;;
        rows <- iterate body_text ;;
        map_res (fun row => subscript row (lit "text")) rows
    | None => Ok []
    end
  else Ok [].

(** The body of the loop of [run] over the rows of [metadata.csv]. *)
Definition run_row (directory : str) (st : Z * Z) (row : metadata) : M (Z * Z) :=
  let '(index, sid) := st in
  uid <~ lift (getId row) ;;
  date <~ lift (getDate row) ;;
  body <~ lift (read directory uid) ;;
  let sections := PyStr (title row) :: body in
  tags <~ lift (getTags sections) ;;
  let article :=
    [PyStr uid; PyStr (source_x row); date; PyStr (journal row);
     PyStr (getAuthors row); PyStr (title row); tags; PyStr (getReference row)] in
  _ <~ insert ARTICLES (lit "articles") article ;;
  let index := (index + 1)%Z in
  _ <~ (if (index mod 1000 =? 0)%Z
        then print (lit "Inserted " ++ str_of_int index ++ lit " articles")
        else ret tt) ;;
  sid <~ for_each sections
           (fun sid text =>
              _ <~ insert SECTIONS (lit "sections") [PyInt sid; PyStr uid; text; tags] ;;
              ret (sid + 1)%Z)
           sid ;;
  ret (index, sid).

(** [run()], for the input directory [sys.argv[1]] and the rows of its
    [metadata.csv], from the world [start]. *)
Definition run (directory : str) (rows : list metadata) : M unit :=
  _ <~ print (lit "Building articles.db from " ++ directory) ;;
  _ <~ create ARTICLES (lit "articles") ;;
  _ <~ create SECTIONS (lit "sections") ;;
  ' (index, sid) <~ for_each rows (run_row directory) (0, 0)%Z ;;
  _ <~ print (lit "Total rows inserted: " ++ str_of_int index) ;;
  _ <~ db_commit ;;
  db_close.

(** ** Reference functions

    What the functions above compute, written without loops, accumulators
    and handlers. *)

(** A parsed date, or no date when the parser raised. *)
Definition date_or_none (r : res datetime) : obj :=
  match r with
  | Ok d => PyDate d
  | Raise _ => PyNone
  end.

(** The coercion of one cell by the descriptor of its column. *)
Definition coerce (ctype : str) (value : obj) : res obj :=
  if startswith ctype (lit "INTEGER") then
    if is_true value then fmap PyInt (int value) else Ok (PyInt 0)
  else if str_eqb ctype (lit "BOOLEAN") then
    Ok (PyInt (if is_TRUE value then 1 else 0))
  else Ok value.

(** The cell of column number [x], named [column], of a coerced row. *)
Definition coerced_cell (table : Sqlite.schema) (row : list obj) (xc : nat * str)
  : res obj :=
  value <- item row (fst xc) ;;
  ctype <- dict_get table (snd xc) ;;
  coerce ctype value.

(** A text contains one of the keywords, whatever its case. *)
Definition mentions_keyword (text : str) : bool :=
  existsb (fun x => contains x (lower text)) keywords.

(** The tag of an article with the given section texts. *)
Definition tag_of (texts : list str) : obj :=
  if existsb mentions_keyword texts then PyStr (lit "COVID-19") else PyNone.

(** The stored row of [articles] with the given cells, and the stored row of
    [sections] number [sid] of article [uid]. *)
Definition article_entry (cells : list obj) : Sqlite.entry :=
  (lit "articles", combine (map fst ARTICLES) cells).

Definition section_entry (sid : Z) (uid : str) (text tags : obj) : Sqlite.entry :=
  (lit "sections", combine (map fst SECTIONS) [PyInt sid; PyStr uid; text; tags]).

(** The rows of [sections] that the sections of one article give.  The
    sections are numbered from [sid] on; a section whose cells the driver
    cannot bind takes its number and gives no row. *)
Fixpoint section_entries (sid : Z) (uid : str) (tags : obj) (sections : list obj)
  : list Sqlite.entry :=
  match sections with
  | [] => []
  | text :: rest =>
      match Sqlite.bind_errors [PyInt sid; PyStr uid; text; tags] with
      | None => [section_entry sid uid text tags]
      | Some _ => []
      end ++ section_entries (sid + 1) uid tags rest
  end.

(** The reports of the sections that give no row, in their order. *)
Fixpoint section_reports (sid : Z) (uid : str) (tags : obj) (sections : list obj)
  : list event :=
  match sections with
  | [] => []
  | text :: rest =>
      match Sqlite.bind_errors [PyInt sid; PyStr uid; text; tags] with
      | None => []
      | Some e => [ErrorInserting (PyInt sid) e]
      end ++ section_reports (sid + 1) uid tags rest
  end.

(** The store holds an article with identifier [uid]. *)
Definition has_article (stored : list Sqlite.entry) (uid : str) : bool :=
  Sqlite.key_taken stored (lit "articles") (lit "Id") (PyStr uid).

(** No row of [sections] is numbered [sid] or above. *)
Definition unused_from (stored : list Sqlite.entry) (sid : Z) : Prop :=
  forall j : Z, (sid <= j)%Z ->
    Sqlite.key_taken stored (lit "sections") (lit "Id") (PyInt j) = false.

(** The connection is open and holds the two tables. *)
Definition ready (w : world) : Prop :=
  Sqlite.closed (db w) = false /\
  Sqlite.tables (db w) = [(lit "articles", ARTICLES); (lit "sections", SECTIONS)].

(** The world after the rows [es] are stored, and after the events [evs]. *)
Definition store (es : list Sqlite.entry) (w : world) : world :=
  match es with
  | [] => w
  | _ :: _ =>
      mkworld (Sqlite.mkconnection (Sqlite.tables (db w)) (Sqlite.rows (db w) ++ es)
                 false false)
              (stdout w)
  end.

Definition say (evs : list event) (w : world) : world :=
  match evs with
  | [] => w
  | _ :: _ => mkworld (db w) (stdout w ++ evs)
  end.

(** What [run_row] derives from a metadata row before it writes. *)
Record draft := mkdraft {
  d_uid : str;
  d_article : list obj;
  d_sections : list obj;
  d_tags : obj
}.

Definition prepare (directory : str) (row : metadata) : res draft :=
  uid <- getId row ;;
  date <- getDate row ;;
  body <- read directory uid ;;
  let sections := PyStr (title row) :: body in
  tags <- getTags sections ;;
  Ok (mkdraft uid
        [PyStr uid; PyStr (source_x row); date; PyStr (journal row);
         PyStr (getAuthors row); PyStr (title row); tags; PyStr (getReference row)]
        sections tags).

(** The rows one metadata row adds to the store: its article, unless the
    identifier is taken, then those of its sections that the driver binds. *)
Definition draft_entries (stored : list Sqlite.entry) (sid : Z) (d : draft)
  : list Sqlite.entry :=
  (if has_article stored (d_uid d) then [] else [article_entry (d_article d)]) ++
  section_entries sid (d_uid d) (d_tags d) (d_sections d).

(** The store after the loop over [rows]: it stops at the first row whose
    preparation raises. *)
Fixpoint stored_after (directory : str) (rows : list metadata)
  (stored : list Sqlite.entry) (sid : Z) : list Sqlite.entry :=
  match rows with
  | [] => stored
  | row :: rest =>
      match prepare directory row with
      | Ok d =>
          stored_after directory rest (stored ++ draft_entries stored sid d)
            (sid + Z.of_nat (List.length (d_sections d)))
      | Raise _ => stored
      end
  end.

(** The counters after the loop, or what the first failing row raises. *)
Fixpoint counters_after (directory : str) (rows : list metadata) (st : Z * Z)
  : res (Z * Z) :=
  match rows with
  | [] => Ok st
  | row :: rest =>
      d <- prepare directory row ;;
      counters_after directory rest
        (fst st + 1, snd st + Z.of_nat (List.length (d_sections d)))%Z
  end.

(** The world after [run_row] has written the draft of a row: the article or
    the report of its rejection, the progress line, the sections and the
    reports of those that are refused. *)
Definition after_row (index sid : Z) (d : draft) (w : world) : world :=
  let w1 :=
    if has_article (Sqlite.rows (db w)) (d_uid d)
    then say [ErrorInserting (PyStr (d_uid d)) IntegrityError] w
    else store [article_entry (d_article d)] w in
  let w2 :=
    if ((index + 1) mod 1000 =? 0)%Z
    then say [Printed (lit "Inserted " ++ str_of_int (index + 1) ++ lit " articles")] w1
    else w1 in
  store (section_entries sid (d_uid d) (d_tags d) (d_sections d))
    (say (section_reports sid (d_uid d) (d_tags d) (d_sections d)) w2).

(** The world after the loop over [rows]. *)
Fixpoint after_rows (directory : str) (rows : list metadata) (st : Z * Z)
  (w : world) : world :=
  match rows with
  | [] => w
  | row :: rest =>
      match prepare directory row with
      | Ok d =>
          after_rows directory rest
            (fst st + 1, snd st + Z.of_nat (List.length (d_sections d)))%Z
            (after_row (fst st) (snd st) d w)
      | Raise _ => w
      end
  end.

(** The world when the loop starts: the banner is printed and the two tables
    exist. *)
Definition opened (directory : str) : world :=
  mkworld
    (Sqlite.mkconnection [(lit "articles", ARTICLES); (lit "sections", SECTIONS)]
       [] false false)
    [Printed (lit "Building articles.db from " ++ directory)].

(** The world when [run] returns: the total is printed, the writes are
    committed and the connection is closed. *)
Definition finished (index : Z) (w : world) : world :=
  mkworld
    (Sqlite.mkconnection (Sqlite.tables (db w)) (Sqlite.rows (db w)) true true)
    (stdout w ++ [Printed (lit "Total rows inserted: " ++ str_of_int index)]).

(** The rows of [sections] of a store, in insertion order. *)
Definition sections_of (stored : list Sqlite.entry) : list Sqlite.entry :=
  filter (fun e => str_eqb (fst e) (lit "sections")) stored.

(** The identifiers of the rows of [sections], in insertion order. *)
Definition section_ids (stored : list Sqlite.entry) : list obj :=
  map (fun e => Sqlite.cell (snd e) (lit "Id")) (sections_of stored).

(** The identifiers [0, 1, ..., n - 1]. *)
Definition counting (n : nat) : list obj :=
  map (fun i => PyInt (Z.of_nat i)) (seq 0 n).

(** Every row of [sections] in [l] names an article that is stored before
    it; [before] is what precedes [l] in the store. *)
Fixpoint references_earlier (before l : list Sqlite.entry) : Prop :=
  match l with
  | [] => True
  | e :: l' =>
      (fst e = lit "sections" ->
       exists uid, Sqlite.cell (snd e) (lit "Article") = PyStr uid /\
                   has_article before uid = true) /\
      references_earlier (before ++ [e]) l'
  end.

(** [s.lstrip()], [s.rstrip()] and [s.strip()] *)
Fixpoint lstrip (s : str) : str :=
  match s with
  | [] => []
  | c :: s' => if isspace c then lstrip s' else s
  end.

Fixpoint rstrip (s : str) : str :=
  match s with
  | [] => []
  | c :: s' => if forallb isspace s then [] else c :: rstrip s'
  end.

Definition strip (s : str) : str := rstrip (lstrip s).

(** The text before the first quote of [s], and the text after it. *)
Fixpoint upto_quote (s : str) : option (str * str) :=
  match s with
  | [] => None
  | c :: s' =>
      if c =? 39 then Some ([], s')
      else match upto_quote s' with
           | Some (a, b) => Some (c :: a, b)
           | None => None
           end
  end.

(** The quoted substrings of [s]: the quotes are paired from the left, and
    what stands between the two quotes of a pair is taken without the
    blanks around it.  [inside] is [None] outside a pair and holds the text
    read since the opening quote, latest character first, inside one. *)
Fixpoint quoted_from (s : str) (inside : option str) : list str :=
  match s with
  | [] => []
  | c :: s' =>
      if c =? 39 then
        match inside with
        | None => quoted_from s' (Some [])
        | Some acc => strip (rev acc) :: quoted_from s' None
        end
      else
        quoted_from s' (match inside with
                        | None => None
                        | Some acc => Some (c :: acc)
                        end)
  end.

Definition quoted (s : str) : list str := quoted_from s None.

(** The identifiers [ids] are integers in increasing order, none below [lo]
    and all below [hi]. *)
Fixpoint ascending (lo : Z) (ids : list obj) (hi : Z) : Prop :=
  match ids with
  | [] => (lo <= hi)%Z
  | PyInt j :: rest => (lo <= j)%Z /\ ascending (j + 1) rest hi
  | _ :: _ => False
  end.

(** The sections of the store are numbered in increasing order below the
    counter, and every section names an earlier article. *)
Definition consistent (stored : list Sqlite.entry) (sid : Z) : Prop :=
  references_earlier [] stored /\
  ascending 0 (section_ids stored) sid.

(** The report of a refused row of [sections], whose key is its number, and
    of a refused row of [articles], whose key is its identifier. *)
Definition is_section_report (e : event) : bool :=
  match e with
  | ErrorInserting (PyInt _) _ => true
  | _ => false
  end.

Definition is_article_report (e : event) : bool :=
  match e with
  | ErrorInserting (PyStr _) _ => true
  | _ => false
  end.

(** A lower-case hexadecimal digit. *)
Definition is_hex_lower (c : char) : bool :=
  ((48 <=? c) && (c <=? 57)) || ((97 <=? c) && (c <=? 102)).

(** A number UTF-8 cannot encode: a surrogate, or beyond the last code point. *)
Definition unencodable (c : char) : bool :=
  ((55296 <=? c) && (c <=? 57343)) || (1114112 <=? c).

(** An object is a string. *)
Definition is_text (o : obj) : bool :=
  match o with
  | PyStr _ => true
  | _ => false
  end.

(** The identifiers of the rows of [articles], in insertion order. *)
Definition article_ids (stored : list Sqlite.entry) : list obj :=
  map (fun e => Sqlite.cell (snd e) (lit "Id"))
      (filter (fun e => str_eqb (fst e) (lit "articles")) stored).

(** A report of a rejected row on the standard output. *)
Definition is_report (e : event) : bool :=
  match e with
  | ErrorInserting _ _ => true
  | Printed _ => false
  end.

(** The loop of [run] gets through a metadata row: its identifier, its
    side-car and its tag are computed without an exception. *)
Definition processable (directory : str) (row : metadata) : Prop :=
  exists (uid : str) (body : list obj) (tags : obj),
    getId row = Ok uid /\
    read directory uid = Ok body /\
    getTags (PyStr (title row) :: body) = Ok tags.

(** A text holds no quote and no blank at either end. *)
Definition clean_name (g : str) : Prop :=
  forallb (fun c => negb (c =? 39)) g = true /\ lstrip g = g /\ rstrip g = g.

(** * Properties *)

(** ** Identity: [getId] *)

Lemma truthy_false_nil (s : str) : truthy s = false -> s = [].
Proof. destruct s; [reflexivity | discriminate]. Qed.

(** C1: [getId] returns the row's [sha] verbatim when it is not empty, and
    otherwise the hexadecimal SHA-1 digest of the UTF-8 bytes of the title;
    the result depends on the [sha] and [title] cells only; a row with no sha
    and the title "COVID Study" gets the digest of the bytes of that text. *)
Theorem getId_sha_or_title_digest :
  forall row : metadata,
    (truthy (sha row) = true -> getId row = Ok (sha row)) /\
    (truthy (sha row) = false ->
     getId row = fmap Sha1.hexdigest (Utf8.encode (title row))) /\
    (forall row' : metadata,
       sha row' = sha row -> title row' = title row -> getId row' = getId row) /\
    (sha row = [] -> title row = lit "COVID Study" ->
     Utf8.encode (title row) = Ok (lit "COVID Study") /\
     getId row = Ok (Sha1.hexdigest (lit "COVID Study")) /\
     getId row = Ok (lit "885480e7e4176d12bcd78170cdffd15c31b5dc03")).
Proof.
  intros row. unfold getId. repeat split.
  - intros H. rewrite H. reflexivity.
  - intros H. rewrite H. reflexivity.
  - intros row' Hs Ht. rewrite Hs, Ht. reflexivity.
  - rewrite H0. vm_compute. reflexivity.
  - rewrite H, H0. vm_compute. reflexivity.
  - rewrite H, H0. vm_compute. reflexivity.
Qed.

(** ** Dates: [getDate] *)

Lemma getDate_unfold (row : metadata) :
  getDate row =
  if truthy (publish_time row) then
    Ok (date_or_none
          (parse (if isdigit (publish_time row) && (List.length (publish_time row) =? 4)%nat
                  then publish_time row ++ lit "-01-01" else publish_time row)))
  else Ok PyNone.
Proof.
  unfold getDate. destruct (truthy (publish_time row)); [| reflexivity].
  destruct (parse _); reflexivity.
Qed.

(** C5: a publish time made of four digits is parsed as that year's 1st of
    January; whatever the parser raises, [getDate] returns no date and never
    raises; an empty publish time gives no date. *)
Theorem getDate_widens_year_and_never_raises :
  forall row : metadata,
    let date := publish_time row in
    (isdigit date = true -> List.length date = 4%nat ->
     getDate row = Ok (date_or_none (parse (date ++ lit "-01-01")))) /\
    (truthy date = true -> isdigit date && (List.length date =? 4)%nat = false ->
     getDate row = Ok (date_or_none (parse date))) /\
    (date = [] -> getDate row = Ok PyNone) /\
    (getDate row = Ok PyNone \/ exists d, getDate row = Ok (PyDate d)) /\
    (forall d, date = lit "2020" -> parse (lit "2020-01-01") = Ok d ->
     getDate row = Ok (PyDate d)) /\
    (forall e, date = lit "not-a-date" -> parse (lit "not-a-date") = Raise e ->
     getDate row = Ok PyNone).
Proof.
  intros row date. subst date. rewrite getDate_unfold. repeat split.
  - intros Hd Hl. rewrite Hd, Hl. simpl.
    destruct (publish_time row); [discriminate | reflexivity].
  - intros Ht Hn. rewrite Ht, Hn. reflexivity.
  - intros H. rewrite H. reflexivity.
  - destruct (truthy (publish_time row)); [| left; reflexivity].
    destruct (parse _) as [d | e]; [right; exists d | left]; reflexivity.
  - intros d H Hp. rewrite H.
    change (lit "2020" ++ lit "-01-01") with (lit "2020-01-01").
    replace (isdigit (lit "2020")) with true by reflexivity.
    simpl. rewrite Hp. reflexivity.
  - intros e H Hp. rewrite H.
    replace (isdigit (lit "not-a-date")) with false by reflexivity.
    simpl. rewrite Hp. reflexivity.
Qed.

(** ** References: [getReference] *)

(** C8: a DOI that is not empty and starts neither with "http" nor with
    "doi.org" gets the prefix "https://doi.org/"; one that starts with either
    is returned unchanged; an empty DOI gives an empty reference. *)
Theorem getReference_prefixes_doi :
  forall row : metadata,
    let text := doi row in
    (truthy text = true -> startswith text (lit "http") = false ->
     startswith text (lit "doi.org") = false ->
     getReference row = lit "https://doi.org/" ++ text) /\
    (startswith text (lit "http") = true \/ startswith text (lit "doi.org") = true ->
     getReference row = text) /\
    (text = [] -> getReference row = []) /\
    (text = lit "10.1234/xyz" -> getReference row = lit "https://doi.org/10.1234/xyz").
Proof.
  intros row text. subst text. unfold getReference. repeat split.
  - intros Ht Hh Hd. rewrite Ht, Hh, Hd. reflexivity.
  - intros [H | H]; rewrite H; simpl.
    + rewrite andb_false_r. reflexivity.
    + rewrite andb_false_r. reflexivity.
  - intros H. rewrite H. reflexivity.
  - intros H. rewrite H. vm_compute. reflexivity.
Qed.

(** ** Coercion: [values] *)

Lemma str_eqb_eq (a b : str) : str_eqb a b = true <-> a = b.
Proof.
  revert b. induction a as [| c a IH]; intros [| d b]; simpl; split; intros H;
    try reflexivity; try discriminate.
  - apply andb_true_iff in H. destruct H as [Hc Ha].
    apply N.eqb_eq in Hc. apply IH in Ha. subst. reflexivity.
  - injection H as -> ->. rewrite N.eqb_refl. apply IH. reflexivity.
Qed.

Lemma str_eqb_refl (a : str) : str_eqb a a = true.
Proof. apply str_eqb_eq. reflexivity. Qed.

Lemma str_eqb_neq (a b : str) : a <> b -> str_eqb a b = false.
Proof.
  intros H. destruct (str_eqb a b) eqn:E; [| reflexivity].
  apply str_eqb_eq in E. contradiction.
Qed.

Lemma bind_Ok_r {A} (m : res A) : bind m (fun a => Ok a) = m.
Proof. destruct m; reflexivity. Qed.

Lemma bind_assoc {A B C} (m : res A) (f : A -> res B) (g : B -> res C) :
  bind (bind m f) g = bind m (fun a => bind (f a) g).
Proof. destruct m; reflexivity. Qed.

(** The accumulating loop of [values] appends the coerced cells. *)
Lemma values_loop (table : Sqlite.schema) (row : list obj) :
  forall (l : list (nat * str)) (acc : list obj),
    for_res l
      (fun values xc =>
         let '(x, column) := xc in
         value <- item row x ;;
         ctype <- dict_get table column ;;
         if startswith ctype (lit "INTEGER") then
           n <- (if is_true value then int value else Ok 0%Z) ;;
           Ok (values ++ [PyInt n])
         else if str_eqb ctype (lit "BOOLEAN") then
           Ok (values ++ [PyInt (if is_TRUE value then 1 else 0)])
         else
           Ok (values ++ [value]))
      acc =
    out <- map_res (coerced_cell table row) l ;; Ok (acc ++ out).
Proof.
  induction l as [| [x column] l IH]; intros acc; simpl.
  - rewrite app_nil_r. reflexivity.
  - unfold coerced_cell at 1. simpl.
    destruct (item row x) as [value |]; simpl; [| reflexivity].
    destruct (dict_get table column) as [ctype |]; simpl; [| reflexivity].
    unfold coerce.
    destruct (startswith ctype (lit "INTEGER")).
    + destruct (is_true value); simpl.
      * destruct (int value) as [n |]; simpl; [| reflexivity].
        rewrite IH. destruct (map_res _ l); simpl; [| reflexivity].
        rewrite <- app_assoc. reflexivity.
      * rewrite IH. destruct (map_res _ l); simpl; [| reflexivity].
        rewrite <- app_assoc. reflexivity.
    + destruct (str_eqb ctype (lit "BOOLEAN")); simpl;
        rewrite IH; (destruct (map_res _ l); simpl; [| reflexivity]);
        rewrite <- app_assoc; reflexivity.
Qed.

(** C6: [values] coerces each cell by the descriptor of its column: under a
    descriptor that starts with INTEGER a false value (empty, [None]) becomes
    0 and any other its conversion by [int]; under BOOLEAN the string "TRUE"
    becomes 1 and anything else 0; under any other descriptor the cell is
    kept as it is, [None] included. *)
Theorem values_coerces_by_descriptor :
  forall (table : Sqlite.schema) (row : list obj) (columns : list str),
    values table row columns =
      map_res (coerced_cell table row) (enumerate columns) /\
    (forall ctype value,
       startswith ctype (lit "INTEGER") = true -> is_true value = false ->
       coerce ctype value = Ok (PyInt 0)) /\
    (forall ctype value,
       startswith ctype (lit "INTEGER") = true -> is_true value = true ->
       coerce ctype value = fmap PyInt (int value)) /\
    (forall value,
       coerce (lit "BOOLEAN") value =
       Ok (PyInt (if is_TRUE value then 1 else 0))) /\
    (forall value,
       is_TRUE value = true <-> value = PyStr (lit "TRUE")) /\
    (forall ctype value,
       startswith ctype (lit "INTEGER") = false -> ctype <> lit "BOOLEAN" ->
       coerce ctype value = Ok value).
Proof.
  intros table row columns. repeat split.
  - unfold values. rewrite values_loop.
    destruct (map_res _ _); reflexivity.
  - intros ctype value Hi Ht. unfold coerce. rewrite Hi, Ht. reflexivity.
  - intros ctype value Hi Ht. unfold coerce. rewrite Hi, Ht. reflexivity.
  - destruct value; simpl; try discriminate.
    intros H. apply str_eqb_eq in H. subst. reflexivity.
  - intros H. subst. reflexivity.
  - intros ctype value Hi Hb. unfold coerce. rewrite Hi.
    rewrite (str_eqb_neq _ _ Hb). reflexivity.
Qed.

(** ** Tags: [getTags] *)

Lemma getTags_loop (texts : list str) :
  forall acc : obj,
    for_res (map PyStr texts)
      (fun tags text =>
         low <- obj_lower text ;;
         if existsb (fun x => contains x low) keywords
         then Ok (PyStr (lit "COVID-19"))
         else Ok tags)
      acc =
    Ok (if existsb mentions_keyword texts then PyStr (lit "COVID-19") else acc).
Proof.
  set (body := fun (tags text : obj) => _).
  induction texts as [| t texts IH]; intros acc; cbn [map for_res existsb].
  - reflexivity.
  - unfold body at 1. cbn [obj_lower bind]. fold (mentions_keyword t).
    destruct (mentions_keyword t); cbn [orb bind]; rewrite IH.
    + destruct (existsb mentions_keyword texts); reflexivity.
    + reflexivity.
Qed.

(** On texts, [getTags] is [tag_of]. *)
Lemma getTags_texts (texts : list str) : getTags (map PyStr texts) = Ok (tag_of texts).
Proof. unfold getTags, tag_of. rewrite getTags_loop. reflexivity. Qed.

(** [getTags] returns only when every section is a text. *)
Lemma getTags_Ok_texts (sections : list obj) (tags : obj) :
  getTags sections = Ok tags -> exists texts, sections = map PyStr texts.
Proof.
  unfold getTags. generalize PyNone as acc. revert tags.
  set (body := fun (tags text : obj) => _).
  induction sections as [| o sections IH]; intros tags acc H.
  - exists []. reflexivity.
  - cbn [for_res] in H. destruct o; try discriminate H.
    unfold body at 1 in H. cbn [obj_lower bind] in H.
    destruct (existsb _ keywords); cbn [bind] in H; apply IH in H;
      destruct H as [texts ->]; exists (s :: texts); reflexivity.
Qed.

(** ** Authors: [getAuthors] and its pattern *)

Lemma exec_greedy_nil (p : char -> bool) (pat : list Re.atom) (rec : bool) (acc : str) :
  Re.exec (Re.Greedy p :: pat) [] rec acc = Re.exec pat [] rec acc.
Proof. reflexivity. Qed.

Lemma exec_greedy_cons (p : char -> bool) (pat : list Re.atom) (d : char) (s : str)
  (rec : bool) (acc : str) :
  Re.exec (Re.Greedy p :: pat) (d :: s) rec acc =
  if p d then
    match Re.exec (Re.Greedy p :: pat) s rec (Re.push rec d acc) with
    | Some r => Some r
    | None => Re.exec pat (d :: s) rec acc
    end
  else Re.exec pat (d :: s) rec acc.
Proof. reflexivity. Qed.

Lemma exec_lazy_nil (p : char -> bool) (pat : list Re.atom) (rec : bool) (acc : str) :
  Re.exec (Re.Lazy p :: pat) [] rec acc = Re.exec pat [] rec acc.
Proof. cbn [Re.exec]. destruct (Re.exec pat [] rec acc); reflexivity. Qed.

Lemma exec_lazy_cons (p : char -> bool) (pat : list Re.atom) (d : char) (s : str)
  (rec : bool) (acc : str) :
  Re.exec (Re.Lazy p :: pat) (d :: s) rec acc =
  match Re.exec pat (d :: s) rec acc with
  | Some r => Some r
  | None => if p d then Re.exec (Re.Lazy p :: pat) s rec (Re.push rec d acc) else None
  end.
Proof. reflexivity. Qed.

Lemma isspace_quote (c : char) : isspace c = true -> (c =? 39) = false.
Proof.
  intros H. apply N.eqb_neq. intros ->. discriminate H.
Qed.

(** The end of the pattern, [\s*']: blanks, then the closing quote. *)
Lemma exec_closing (s acc : str) :
  Re.exec [Re.Greedy isspace; Re.Lit 39] s false acc =
  match lstrip s with
  | c :: s2 => if c =? 39 then Some (rev acc, s2) else None
  | [] => None
  end.
Proof.
  induction s as [| d s IH].
  - reflexivity.
  - rewrite exec_greedy_cons. cbn [lstrip Re.push].
    destruct (isspace d) eqn:Hd.
    + rewrite IH. cbn [Re.exec]. rewrite N.eqb_sym, (isspace_quote d Hd).
      destruct (lstrip s) as [| c s2]; [reflexivity |].
      destruct (c =? 39); reflexivity.
    + cbn [Re.exec Re.push]. rewrite N.eqb_sym. destruct (d =? 39); reflexivity.
Qed.

(** Blanks up to a quote: the text before the quote is all blank. *)
Lemma lstrip_quote (s : str) :
  match lstrip s with
  | c :: s2 =>
      if c =? 39
      then exists body, upto_quote s = Some (body, s2) /\ forallb isspace body = true
      else forall body s3, upto_quote s = Some (body, s3) -> forallb isspace body = false
  | [] => upto_quote s = None
  end.
Proof.
  induction s as [| d s IH]; cbn [lstrip upto_quote].
  - reflexivity.
  - destruct (isspace d) eqn:Hd.
    + rewrite (isspace_quote d Hd).
      destruct (lstrip s) as [| c s2].
      * rewrite IH. reflexivity.
      * destruct (c =? 39).
        -- destruct IH as (body & -> & Hb). exists (d :: body).
           split; [reflexivity |]. cbn [forallb]. rewrite Hd, Hb. reflexivity.
        -- intros body s3 H. destruct (upto_quote s) as [[a b] |]; [| discriminate].
           injection H as <- <-. cbn [forallb]. rewrite Hd. apply (IH a b eq_refl).
    + destruct (d =? 39) eqn:Hq.
      * exists []. split; reflexivity.
      * intros body s3 H. destruct (upto_quote s) as [[a b] |]; [| discriminate].
        injection H as <- <-. cbn [forallb]. rewrite Hd. reflexivity.
Qed.

(** The group and what follows it, [([^']*?)\s*']. *)
Lemma exec_group (s : str) :
  forall acc : str,
    Re.exec [Re.Lazy (fun c => negb (c =? 39)); Re.Close; Re.Greedy isspace; Re.Lit 39]
      s true acc =
    match upto_quote s with
    | Some (body, s2) => Some (rev acc ++ rstrip body, s2)
    | None => None
    end.
Proof.
  induction s as [| d s IH]; intros acc.
  - reflexivity.
  - rewrite exec_lazy_cons.
    change (Re.exec (Re.Close :: ?p) ?x true ?a) with (Re.exec p x false a).
    rewrite exec_closing.
    pose proof (lstrip_quote (d :: s)) as L.
    destruct (lstrip (d :: s)) as [| c s2].
    + rewrite L. destruct (d =? 39) eqn:Hq; [cbn [upto_quote] in L; rewrite Hq in L; discriminate |].
      cbn [negb]. rewrite IH. cbn [upto_quote] in L. rewrite Hq in L.
      destruct (upto_quote s) as [[a b] |]; [discriminate | reflexivity].
    + destruct (c =? 39).
      * destruct L as (body & -> & Hb).
        destruct body as [| x body]; cbn [rstrip]; [| rewrite Hb];
          rewrite app_nil_r; reflexivity.
      * cbn [upto_quote] in *. destruct (d =? 39) eqn:Hq.
        -- specialize (L [] s eq_refl). discriminate.
        -- cbn [negb Re.push]. rewrite IH.
           destruct (upto_quote s) as [[a b] |]; [| reflexivity].
           cbn [rstrip]. rewrite (L (d :: a) b eq_refl).
           cbn [rev]. rewrite <- app_assoc. reflexivity.
Qed.

(** The pattern after the opening quote. *)
Lemma exec_after_quote (s : str) :
  Re.exec [Re.Greedy isspace; Re.Open; Re.Lazy (fun c => negb (c =? 39)); Re.Close;
           Re.Greedy isspace; Re.Lit 39] s false [] =
  match upto_quote s with
  | Some (body, s2) => Some (strip body, s2)
  | None => None
  end.
Proof.
  induction s as [| d s IH].
  - reflexivity.
  - rewrite exec_greedy_cons. cbn [Re.push].
    change (Re.exec (Re.Open :: ?p) ?x false ?a) with (Re.exec p x true a).
    rewrite exec_group. cbn [upto_quote rev app].
    destruct (isspace d) eqn:Hd.
    + rewrite (isspace_quote d Hd), IH.
      destruct (upto_quote s) as [[a b] |]; [| reflexivity].
      unfold strip. cbn [lstrip]. rewrite Hd. reflexivity.
    + destruct (d =? 39); [reflexivity |].
      destruct (upto_quote s) as [[a b] |]; [| reflexivity].
      unfold strip. cbn [lstrip]. rewrite Hd. reflexivity.
Qed.

(** One attempt of the whole pattern at a position. *)
Lemma exec_authors (s : str) :
  Re.exec AUTHORS_RE s false [] =
  match s with
  | c :: s1 =>
      if c =? 39 then
        match upto_quote s1 with
        | Some (body, s2) => Some (strip body, s2)
        | None => None
        end
      else None
  | [] => None
  end.
Proof.
  destruct s as [| c s1]; [reflexivity |].
  unfold AUTHORS_RE. cbn [Re.exec Re.push]. rewrite N.eqb_sym.
  destruct (c =? 39); [| reflexivity].
  apply exec_after_quote.
Qed.

Lemma upto_quote_eq (s body s2 : str) :
  upto_quote s = Some (body, s2) -> s = body ++ 39 :: s2.
Proof.
  revert body s2. induction s as [| c s IH]; intros body s2 H; cbn [upto_quote] in H.
  - discriminate.
  - destruct (c =? 39) eqn:Hc.
    + injection H as <- <-. apply N.eqb_eq in Hc. subst. reflexivity.
    + destruct (upto_quote s) as [[a b] |]; [| discriminate].
      injection H as <- <-. cbn [app]. rewrite (IH a b eq_refl). reflexivity.
Qed.

Lemma quoted_from_no_quote (s : str) :
  upto_quote s = None -> forall inside, quoted_from s inside = [].
Proof.
  induction s as [| c s IH]; intros H inside; cbn [upto_quote quoted_from] in *.
  - reflexivity.
  - destruct (c =? 39); [discriminate |].
    destruct (upto_quote s) as [[a b] |]; [discriminate |].
    apply IH. reflexivity.
Qed.

Lemma quoted_from_inside (s : str) :
  forall (acc body s2 : str),
    upto_quote s = Some (body, s2) ->
    quoted_from s (Some acc) = strip (rev acc ++ body) :: quoted_from s2 None.
Proof.
  induction s as [| c s IH]; intros acc body s2 H; cbn [upto_quote quoted_from] in *.
  - discriminate.
  - destruct (c =? 39).
    + injection H as <- <-. rewrite app_nil_r. reflexivity.
    + destruct (upto_quote s) as [[a b] |]; [| discriminate].
      injection H as <- <-. specialize (IH (c :: acc) a b eq_refl).
      cbn [rev] in IH. rewrite <- app_assoc in IH. exact IH.
Qed.

Lemma findall_from_skip (pat : list Re.atom) (a b : str) :
  Re.findall_from pat (a ++ b) (List.length a) = Re.findall_from pat b 0.
Proof.
  induction a as [| x a IH]; [reflexivity |].
  cbn [app List.length Re.findall_from]. exact IH.
Qed.

(** [findall] with the pattern of [getAuthors] gives the quoted substrings. *)
Lemma findall_authors_quoted (s : str) : Re.findall AUTHORS_RE s = quoted s.
Proof.
  unfold Re.findall, quoted.
  remember (List.length s) as n eqn:Hn.
  assert (Hle : (List.length s <= n)%nat) by lia. clear Hn.
  revert s Hle. induction n as [| n IH]; intros s Hle.
  - destruct s; [reflexivity | cbn [List.length] in Hle; lia].
  - destruct s as [| c s1]; [reflexivity |].
    cbn [List.length] in Hle.
    cbn [Re.findall_from quoted_from]. rewrite exec_authors.
    destruct (c =? 39).
    + destruct (upto_quote s1) as [[body s2] |] eqn:Hq.
      * etransitivity; [| symmetry; apply (quoted_from_inside s1 [] body s2 Hq)].
        cbn [rev app].
        pose proof (upto_quote_eq _ _ _ Hq) as Hs. f_equal.
        replace (List.length (c :: s1) - List.length s2 - 1)%nat
          with (List.length (body ++ [39])).
        2:{ rewrite Hs. cbn [List.length]. rewrite !length_app. cbn [List.length]. lia. }
        replace s1 with ((body ++ [39]) ++ s2)
          by (rewrite Hs, <- app_assoc; reflexivity).
        rewrite findall_from_skip. apply IH.
        rewrite Hs, length_app in Hle. cbn [List.length] in Hle. lia.
      * etransitivity; [| symmetry; apply (quoted_from_no_quote s1 Hq)].
        rewrite IH by lia. apply (quoted_from_no_quote s1 Hq).
    + apply IH. lia.
Qed.

(** C9: an authors value that is not empty and contains a bracket becomes
    its quoted substrings joined by "; "; any other value is returned as it
    is; the quoted substrings are what [re.findall] gives for the pattern. *)
Theorem getAuthors_joins_quoted_substrings :
  forall row : metadata,
    let value := authors row in
    (truthy value = true -> contains (lit "[") value = true ->
     getAuthors row = join (lit "; ") (quoted value)) /\
    (contains (lit "[") value = false -> getAuthors row = value) /\
    (value = [] -> getAuthors row = []) /\
    Re.findall AUTHORS_RE value = quoted value /\
    (value = lit "['Smith, J.', 'Doe, A.']" ->
     getAuthors row = lit "Smith, J.; Doe, A.").
Proof.
  intros row value. subst value. unfold getAuthors. rewrite findall_authors_quoted.
  repeat split.
  - intros Ht Hc. rewrite Ht, Hc. reflexivity.
  - intros Hc. rewrite Hc, andb_false_r. reflexivity.
  - intros H. rewrite H. reflexivity.
  - intros H. rewrite H. vm_compute. reflexivity.
Qed.

(** ** Identifiers: what [getId] returns and raises *)

Lemma be_bytes_length (n : nat) : forall x, List.length (Sha1.be_bytes n x) = n.
Proof.
  induction n as [| n IH]; intros x; cbn [Sha1.be_bytes].
  - reflexivity.
  - rewrite length_app, IH. cbn [List.length]. lia.
Qed.

Lemma be_bytes_small (n : nat) :
  forall x, Forall (fun b => b < 256) (Sha1.be_bytes n x).
Proof.
  induction n as [| n IH]; intros x; cbn [Sha1.be_bytes].
  - constructor.
  - apply Forall_app. split; [apply IH |].
    constructor; [| constructor]. apply N.mod_lt. discriminate.
Qed.

Lemma digest_length (msg : list N) : List.length (Sha1.digest msg) = 20%nat.
Proof.
  unfold Sha1.digest. destruct (fold_left _ _ _) as [[[[h0 h1] h2] h3] h4].
  rewrite !length_app, !be_bytes_length. reflexivity.
Qed.

Lemma digest_small (msg : list N) : Forall (fun b => b < 256) (Sha1.digest msg).
Proof.
  unfold Sha1.digest. destruct (fold_left _ _ _) as [[[[h0 h1] h2] h3] h4].
  apply Forall_app; split; [apply be_bytes_small |].
  apply Forall_app; split; [apply be_bytes_small |].
  apply Forall_app; split; [apply be_bytes_small |].
  apply Forall_app; split; apply be_bytes_small.
Qed.

Lemma hex_length (bs : list N) : List.length (Sha1.hex bs) = (2 * List.length bs)%nat.
Proof.
  unfold Sha1.hex. induction bs as [| b bs IH]; [reflexivity |].
  cbn [flat_map app List.length]. rewrite IH. lia.
Qed.

Lemma hex_digit_lower (x : N) : x < 16 -> is_hex_lower (Sha1.hex_digit x) = true.
Proof.
  intros H. unfold Sha1.hex_digit, is_hex_lower.
  destruct (N.ltb_spec x 10).
  - replace (48 <=? 48 + x) with true by (symmetry; apply N.leb_le; lia).
    replace (48 + x <=? 57) with true by (symmetry; apply N.leb_le; lia).
    reflexivity.
  - replace (97 <=? 87 + x) with true by (symmetry; apply N.leb_le; lia).
    replace (87 + x <=? 102) with true by (symmetry; apply N.leb_le; lia).
    apply orb_true_r.
Qed.

Lemma hex_lower (bs : list N) :
  Forall (fun b => b < 256) bs -> forallb is_hex_lower (Sha1.hex bs) = true.
Proof.
  unfold Sha1.hex. induction 1 as [| b bs Hb _ IH]; [reflexivity |].
  cbn [flat_map app forallb]. rewrite IH, !hex_digit_lower.
  - reflexivity.
  - apply N.mod_lt. discriminate.
  - apply N.Div0.div_lt_upper_bound. exact Hb.
Qed.

(** X1: the identifier [getId] returns is never empty: it is the [sha] of
    the row when there is one, and otherwise forty lower-case hexadecimal
    digits. *)
Theorem getId_identifier_shape :
  forall (row : metadata) (uid : str),
    getId row = Ok uid ->
    truthy uid = true /\
    (sha row <> [] -> uid = sha row) /\
    (sha row = [] ->
     List.length uid = 40%nat /\ forallb is_hex_lower uid = true).
Proof.
  intros row uid. unfold getId. destruct (sha row) as [| c s] eqn:Hs; cbn [truthy negb].
  - destruct (Utf8.encode (title row)) as [data |]; cbn [bind]; [| discriminate].
    intros H. injection H as <-.
    assert (Hl : List.length (Sha1.hexdigest data) = 40%nat)
      by (unfold Sha1.hexdigest; rewrite hex_length, digest_length; reflexivity).
    repeat split.
    + destruct (Sha1.hexdigest data); [discriminate Hl | reflexivity].
    + intros H. contradiction.
    + exact Hl.
    + apply hex_lower, digest_small.
  - intros H. injection H as <-.
    split; [reflexivity |]. split; [reflexivity |]. intros H. discriminate H.
Qed.

Lemma encode_char_raises (c : char) :
  (exists e, Utf8.encode_char c = Raise e) <-> unencodable c = true.
Proof.
  unfold Utf8.encode_char, unencodable.
  destruct (N.ltb_spec c 128).
  - replace (55296 <=? c) with false by (symmetry; apply N.leb_gt; lia).
    replace (1114112 <=? c) with false by (symmetry; apply N.leb_gt; lia).
    split; [intros [e He]; discriminate He | discriminate].
  - destruct (N.ltb_spec c 2048).
    + replace (55296 <=? c) with false by (symmetry; apply N.leb_gt; lia).
      replace (1114112 <=? c) with false by (symmetry; apply N.leb_gt; lia).
      split; [intros [e He]; discriminate He | discriminate].
    + destruct ((55296 <=? c) && (c <=? 57343)) eqn:Hs; cbn [orb].
      * split; [reflexivity | intros _; eexists; reflexivity].
      * destruct (N.ltb_spec c 65536).
        -- replace (1114112 <=? c) with false by (symmetry; apply N.leb_gt; lia).
           split; [intros [e He]; discriminate He | discriminate].
        -- destruct (N.ltb_spec c 1114112).
           ++ replace (1114112 <=? c) with false by (symmetry; apply N.leb_gt; lia).
              split; [intros [e He]; discriminate He | discriminate].
           ++ replace (1114112 <=? c) with true by (symmetry; apply N.leb_le; lia).
              split; [reflexivity | intros _; eexists; reflexivity].
Qed.




Lemma dict_get_raises {A} (d : list (str * A)) (key : str) (e : exn) :
  dict_get d key = Raise e -> e = KeyError.
Proof.
  induction d as [| [k v] d IH]; cbn [dict_get].
  - intros H. injection H as <-. reflexivity.
  - destruct (str_eqb k key); [discriminate | exact IH].
Qed.



(** ** The store and the loop of [run] *)

Lemma values_map_res (table : Sqlite.schema) (row : list obj) (columns : list str) :
  values table row columns = map_res (coerced_cell table row) (enumerate columns).
Proof.
  unfold values. rewrite values_loop. destruct (map_res _ _); reflexivity.
Qed.

Lemma key_taken_app (a b : list Sqlite.entry) (name column : str) (key : obj) :
  Sqlite.key_taken (a ++ b) name column key =
  Sqlite.key_taken a name column key || Sqlite.key_taken b name column key.
Proof. unfold Sqlite.key_taken. apply existsb_app. Qed.

Lemma violates_filter (stored : list Sqlite.entry) (name : str)
  (fields : Sqlite.schema) (r : list (str * obj)) :
  Sqlite.violates stored name fields r =
  existsb (fun f => Sqlite.key_taken stored name (fst f) (Sqlite.cell r (fst f)))
          (filter (fun f => Sqlite.is_primary_key (snd f)) fields).
Proof.
  unfold Sqlite.violates. induction fields as [| f fields IH]; simpl.
  - reflexivity.
  - destruct (Sqlite.is_primary_key (snd f)); simpl; rewrite IH; reflexivity.
Qed.

Lemma execute_insert (c : Sqlite.connection) (sql name : str)
  (columns : list str) (params : list obj) (fields : Sqlite.schema) :
  Sqlite.closed c = false ->
  Sqlite.lookup_table c name = Some fields ->
  forallb (fun col => existsb (fun f => str_eqb (fst f) col) fields) columns = true ->
  List.length params = List.length columns ->
  Sqlite.execute c (Sqlite.InsertInto sql name columns params) =
  match Sqlite.bind_errors params with
  | Some e => Raise e
  | None =>
      if Sqlite.violates (Sqlite.rows c) name fields (combine columns params)
      then Raise IntegrityError
      else Ok (Sqlite.mkconnection (Sqlite.tables c)
                 (Sqlite.rows c ++ [(name, combine columns params)]) false false)
  end.
Proof.
  intros Hc Hl Hcols Hlen. unfold Sqlite.execute.
  rewrite Hc, Hl, Hcols, Hlen, Nat.eqb_refl. reflexivity.
Qed.

Lemma bind_errors_supported (params : list obj) :
  forallb Sqlite.supported params = true -> Sqlite.bind_errors params = None.
Proof.
  induction params as [| v params IH]; [reflexivity |].
  cbn [forallb Sqlite.bind_errors]. unfold Sqlite.supported at 1.
  destruct (Sqlite.bind_error v); [discriminate | exact IH].
Qed.

Lemma supported_str (s : str) :
  Utf8.encodable s = true -> Sqlite.supported (PyStr s) = true.
Proof.
  unfold Sqlite.supported, Sqlite.bind_error, Utf8.encodable.
  destruct (Utf8.encode s); [reflexivity | discriminate].
Qed.

Lemma insert_article (w : world) (uid : str) (c1 c2 c3 c4 c5 c6 c7 : obj) :
  ready w ->
  Sqlite.bind_errors [PyStr uid; c1; c2; c3; c4; c5; c6; c7] = None ->
  insert ARTICLES (lit "articles") [PyStr uid; c1; c2; c3; c4; c5; c6; c7] w =
  if has_article (Sqlite.rows (db w)) uid
  then (say [ErrorInserting (PyStr uid) IntegrityError] w, Ok tt)
  else (store [article_entry [PyStr uid; c1; c2; c3; c4; c5; c6; c7]] w, Ok tt).
Proof.
  intros [Hc Ht] Hs.
  unfold insert, try_except, bindM, lift, db_execute.
  rewrite values_map_res.
  replace (map_res _ _) with (Ok [PyStr uid; c1; c2; c3; c4; c5; c6; c7]) by reflexivity.
  rewrite (execute_insert _ _ _ _ _ ARTICLES Hc).
  - rewrite Hs, violates_filter.
    replace (filter _ ARTICLES) with [(lit "Id", lit "TEXT PRIMARY KEY")] by reflexivity.
    cbn [existsb fst]. rewrite orb_false_r.
    replace (Sqlite.cell _ (lit "Id")) with (PyStr uid) by reflexivity.
    fold (has_article (Sqlite.rows (db w)) uid).
    destruct (has_article (Sqlite.rows (db w)) uid); reflexivity.
  - unfold Sqlite.lookup_table. rewrite Ht. reflexivity.
  - reflexivity.
  - reflexivity.
Qed.

Lemma values_section (sid : Z) (uid : str) (text tags : obj) :
  values SECTIONS [PyInt sid; PyStr uid; text; tags] (map fst SECTIONS) =
  Ok [PyInt sid; PyStr uid; text; tags].
Proof. rewrite values_map_res. destruct sid; reflexivity. Qed.

(** An insert into [sections]: the row is refused when a cell cannot be
    bound or the number is taken, and stored otherwise. *)
Lemma insert_section (w : world) (sid : Z) (uid : str) (text tags : obj) :
  ready w ->
  insert SECTIONS (lit "sections") [PyInt sid; PyStr uid; text; tags] w =
  match Sqlite.bind_errors [PyInt sid; PyStr uid; text; tags] with
  | Some e => (say [ErrorInserting (PyInt sid) e] w, Ok tt)
  | None =>
      if Sqlite.key_taken (Sqlite.rows (db w)) (lit "sections") (lit "Id") (PyInt sid)
      then (say [ErrorInserting (PyInt sid) IntegrityError] w, Ok tt)
      else (store [section_entry sid uid text tags] w, Ok tt)
  end.
Proof.
  intros [Hc Ht].
  unfold insert, try_except, bindM, lift, db_execute.
  rewrite values_section.
  rewrite (execute_insert _ _ _ _ _ SECTIONS Hc).
  - destruct (Sqlite.bind_errors _); [reflexivity |].
    rewrite violates_filter.
    replace (filter _ SECTIONS) with [(lit "Id", lit "INTEGER PRIMARY KEY")] by reflexivity.
    cbn [existsb fst]. rewrite orb_false_r.
    replace (Sqlite.cell _ (lit "Id")) with (PyInt sid) by reflexivity.
    destruct (Sqlite.key_taken _ _ _ _); reflexivity.
  - unfold Sqlite.lookup_table. rewrite Ht. reflexivity.
  - reflexivity.
  - reflexivity.
Qed.

Lemma ready_store (es : list Sqlite.entry) (w : world) : ready w -> ready (store es w).
Proof.
  intros H. destruct es; [exact H |]. destruct H as [Hc Ht].
  split; [reflexivity | exact Ht].
Qed.

Lemma rows_store (es : list Sqlite.entry) (w : world) :
  Sqlite.rows (db (store es w)) = Sqlite.rows (db w) ++ es.
Proof. destruct es; simpl; [rewrite app_nil_r |]; reflexivity. Qed.

Lemma stdout_store (es : list Sqlite.entry) (w : world) :
  stdout (store es w) = stdout w.
Proof. destruct es; reflexivity. Qed.

Lemma store_store (a b : list Sqlite.entry) (w : world) :
  store b (store a w) = store (a ++ b) w.
Proof.
  destruct a as [| x a]; [reflexivity |].
  destruct b as [| y b]; [rewrite app_nil_r; reflexivity |].
  unfold store. simpl. rewrite <- app_assoc. reflexivity.
Qed.

Lemma ready_say (evs : list event) (w : world) : ready w -> ready (say evs w).
Proof. intros H. destruct evs; exact H. Qed.

Lemma rows_say (evs : list event) (w : world) :
  Sqlite.rows (db (say evs w)) = Sqlite.rows (db w).
Proof. destruct evs; reflexivity. Qed.

Lemma stdout_say (evs : list event) (w : world) :
  stdout (say evs w) = stdout w ++ evs.
Proof. destruct evs; cbn [say stdout]; [rewrite app_nil_r |]; reflexivity. Qed.

Lemma say_say (a b : list event) (w : world) :
  say b (say a w) = say (a ++ b) w.
Proof.
  destruct a as [| x a]; [reflexivity |].
  destruct b as [| y b]; [rewrite app_nil_r; reflexivity |].
  unfold say. simpl. rewrite <- app_assoc. reflexivity.
Qed.

Lemma store_say (es : list Sqlite.entry) (evs : list event) (w : world) :
  store es (say evs w) = say evs (store es w).
Proof. destruct es, evs; reflexivity. Qed.

Lemma key_taken_section_entry (sid j : Z) (uid : str) (text tags : obj) :
  Sqlite.key_taken [section_entry sid uid text tags] (lit "sections") (lit "Id") (PyInt j) =
  (sid =? j)%Z.
Proof.
  unfold Sqlite.key_taken. cbn [existsb].
  replace (str_eqb _ _) with true by reflexivity.
  replace (Sqlite.cell _ _) with (PyInt sid) by reflexivity.
  simpl. rewrite orb_false_r. reflexivity.
Qed.

Lemma unused_from_store (stored : list Sqlite.entry) (sid : Z) (uid : str) (text tags : obj) :
  unused_from stored sid ->
  unused_from (stored ++ [section_entry sid uid text tags]) (sid + 1).
Proof.
  intros H j Hj. rewrite key_taken_app, key_taken_section_entry.
  rewrite H by lia. simpl. apply Z.eqb_neq. lia.
Qed.

Lemma unused_from_later (stored : list Sqlite.entry) (sid sid' : Z) :
  (sid <= sid')%Z -> unused_from stored sid -> unused_from stored sid'.
Proof. intros Hle H j Hj. apply H. lia. Qed.

(** The loop of [run_row] over the sections: each section takes a number;
    it is stored, or refused and reported. *)
Lemma insert_sections (uid : str) (tags : obj) (sections : list obj) :
  forall (w : world) (sid : Z),
    ready w -> unused_from (Sqlite.rows (db w)) sid ->
    for_each sections
      (fun sid text =>
         _ <~ insert SECTIONS (lit "sections") [PyInt sid; PyStr uid; text; tags] ;;
         ret (sid + 1)%Z)
      sid w =
    (store (section_entries sid uid tags sections)
       (say (section_reports sid uid tags sections) w),
     Ok (sid + Z.of_nat (List.length sections))%Z).
Proof.
  induction sections as [| text sections IH]; intros w sid Hr Hu.
  - cbn [for_each section_entries section_reports List.length store say]. unfold ret.
    rewrite Z.add_0_r. reflexivity.
  - cbn [for_each section_entries section_reports]. unfold bindM at 1. unfold bindM at 1.
    rewrite (insert_section w sid uid text tags Hr).
    replace (sid + Z.of_nat (List.length (text :: sections)))%Z
      with (sid + 1 + Z.of_nat (List.length sections))%Z
      by (cbn [List.length]; lia).
    destruct (Sqlite.bind_errors [PyInt sid; PyStr uid; text; tags]) as [e |].
    + unfold ret at 1. rewrite IH.
      * rewrite say_say. reflexivity.
      * apply ready_say. exact Hr.
      * rewrite rows_say. apply (unused_from_later _ sid); [lia | exact Hu].
    + rewrite (Hu sid) by lia. unfold ret at 1. rewrite IH.
      * rewrite <- store_say, store_store. reflexivity.
      * apply ready_store. exact Hr.
      * rewrite rows_store. apply unused_from_store. exact Hu.
Qed.

Lemma getDate_supported (row : metadata) (date : obj) :
  getDate row = Ok date -> Sqlite.supported date = true.
Proof.
  rewrite getDate_unfold. destruct (truthy (publish_time row)).
  - destruct (parse _); intros H; injection H as <-; reflexivity.
  - intros H; injection H as <-; reflexivity.
Qed.

Lemma tag_of_supported (texts : list str) : Sqlite.supported (tag_of texts) = true.
Proof. unfold tag_of. destruct (existsb _ _); vm_compute; reflexivity. Qed.

(** *** Text that the driver binds

    The cells of a metadata row are decoded text, and so is what [getId],
    [getAuthors] and [getReference] make of them: the cells of an article
    can always be bound. *)

Lemma encodable_forallb (s : str) :
  Utf8.encodable s = forallb (fun c => negb (unencodable c)) s.
Proof.
  unfold Utf8.encodable. induction s as [| c s IH]; [reflexivity |].
  cbn [Utf8.encode forallb].
  destruct (Utf8.encode_char c) as [b |] eqn:Hc; cbn [bind].
  - assert (Hu : unencodable c = false).
    { destruct (unencodable c) eqn:E; [| reflexivity].
      apply encode_char_raises in E. destruct E as [e E]. congruence. }
    rewrite Hu, <- IH. destruct (Utf8.encode s); reflexivity.
  - replace (unencodable c) with true
      by (symmetry; apply encode_char_raises; eexists; exact Hc).
    reflexivity.
Qed.

Lemma encodable_app (a b : str) :
  Utf8.encodable (a ++ b) = Utf8.encodable a && Utf8.encodable b.
Proof. rewrite !encodable_forallb. apply forallb_app. Qed.

Lemma lstrip_forallb (P : char -> bool) (s : str) :
  forallb P s = true -> forallb P (lstrip s) = true.
Proof.
  induction s as [| c s IH]; cbn [lstrip forallb]; [reflexivity |].
  intros H. apply andb_true_iff in H. destruct H as [Hc Hs].
  destruct (isspace c); [apply IH; exact Hs |].
  cbn [forallb]. rewrite Hc, Hs. reflexivity.
Qed.

Lemma rstrip_forallb (P : char -> bool) (s : str) :
  forallb P s = true -> forallb P (rstrip s) = true.
Proof.
  induction s as [| c s IH]; [reflexivity |].
  intros H. cbn [forallb] in H. apply andb_true_iff in H. destruct H as [Hc Hs].
  cbn [rstrip]. destruct (forallb isspace (c :: s)); [reflexivity |].
  cbn [forallb]. rewrite Hc, (IH Hs). reflexivity.
Qed.

Lemma rev_forallb (P : char -> bool) (s : str) :
  forallb P s = true -> forallb P (rev s) = true.
Proof.
  intros H. apply forallb_forall. intros c Hc.
  apply in_rev in Hc. revert c Hc. apply forallb_forall. exact H.
Qed.

Lemma quoted_from_forallb (P : char -> bool) (s : str) :
  forall (inside : option str) (g : str),
    forallb P s = true ->
    match inside with
    | Some acc => forallb P acc = true
    | None => True
    end ->
    In g (quoted_from s inside) -> forallb P g = true.
Proof.
  induction s as [| c s IH]; intros inside g Hs Hacc Hin; cbn [quoted_from] in Hin.
  - destruct Hin.
  - cbn [forallb] in Hs. apply andb_true_iff in Hs. destruct Hs as [Hc Hs].
    destruct (c =? 39).
    + destruct inside as [acc |].
      * destruct Hin as [<- | Hin].
        -- unfold strip. apply rstrip_forallb, lstrip_forallb, rev_forallb, Hacc.
        -- apply (IH None g Hs I Hin).
      * apply (IH (Some []) g Hs eq_refl Hin).
    + destruct inside as [acc |].
      * apply (IH (Some (c :: acc)) g Hs); [| exact Hin].
        cbn [forallb]. rewrite Hc, Hacc. reflexivity.
      * apply (IH None g Hs I Hin).
Qed.

Lemma join_forallb (P : char -> bool) (sep : str) (parts : list str) :
  forallb P sep = true ->
  (forall g, In g parts -> forallb P g = true) ->
  forallb P (join sep parts) = true.
Proof.
  intros Hsep. induction parts as [| p parts IH]; intros H; [reflexivity |].
  cbn [join]. destruct parts as [| q parts]; [apply H; left; reflexivity |].
  rewrite !forallb_app, Hsep, (H p (or_introl eq_refl)). cbn [andb].
  apply IH. intros g Hg. apply H. right. exact Hg.
Qed.

Lemma metadata_decoded (row : metadata) :
  Utf8.encodable (sha row) = true /\ Utf8.encodable (source_x row) = true /\
  Utf8.encodable (journal row) = true /\ Utf8.encodable (authors row) = true /\
  Utf8.encodable (title row) = true /\ Utf8.encodable (doi row) = true.
Proof.
  pose proof (decoded row) as H. cbn [forallb] in H.
  repeat (apply andb_true_iff in H; destruct H as [? H]).
  repeat split; assumption.
Qed.

Lemma getId_encodable (row : metadata) (uid : str) :
  getId row = Ok uid -> Utf8.encodable uid = true.
Proof.
  intros H. destruct (getId_identifier_shape row uid H) as (_ & Hsha & Hhex).
  destruct (sha row) as [| c s] eqn:Hs.
  - destruct (Hhex eq_refl) as [_ Hh]. rewrite encodable_forallb.
    apply forallb_forall. intros c Hc.
    assert (Hl : is_hex_lower c = true)
      by (revert c Hc; apply forallb_forall; exact Hh).
    unfold is_hex_lower in Hl. unfold unencodable.
    replace (55296 <=? c) with false; [replace (1114112 <=? c) with false; [reflexivity |] |];
      symmetry; apply N.leb_gt;
      apply orb_true_iff in Hl; destruct Hl as [Hl | Hl];
      apply andb_true_iff in Hl; destruct Hl as [_ Hl]; apply N.leb_le in Hl; lia.
  - rewrite (Hsha ltac:(discriminate)), <- Hs. apply (metadata_decoded row).
Qed.

Lemma getAuthors_encodable (row : metadata) : Utf8.encodable (getAuthors row) = true.
Proof.
  destruct (metadata_decoded row) as (_ & _ & _ & Ha & _).
  unfold getAuthors. destruct (truthy (authors row) && contains (lit "[") (authors row));
    [| exact Ha].
  rewrite findall_authors_quoted, encodable_forallb.
  rewrite encodable_forallb in Ha.
  apply join_forallb; [reflexivity |].
  intros g Hg. apply (quoted_from_forallb _ (authors row) None g Ha I Hg).
Qed.

Lemma getReference_encodable (row : metadata) : Utf8.encodable (getReference row) = true.
Proof.
  destruct (metadata_decoded row) as (_ & _ & _ & _ & _ & Hd).
  unfold getReference. destruct (_ && _); [| exact Hd].
  rewrite encodable_app, Hd. reflexivity.
Qed.

(** The cells of the article of a row can all be bound. *)
Lemma article_binds (row : metadata) (uid : str) (date : obj) (texts : list str) :
  getId row = Ok uid -> getDate row = Ok date ->
  Sqlite.bind_errors
    [PyStr uid; PyStr (source_x row); date; PyStr (journal row);
     PyStr (getAuthors row); PyStr (title row); tag_of texts;
     PyStr (getReference row)] = None.
Proof.
  intros Hi Hd. destruct (metadata_decoded row) as (_ & Hs & Hj & _ & Ht & _).
  apply bind_errors_supported. cbn [forallb].
  rewrite !supported_str, (getDate_supported _ _ Hd), tag_of_supported;
    [reflexivity | | | | | |];
    (apply getReference_encodable || apply getAuthors_encodable || assumption ||
     apply (getId_encodable _ _ Hi)).
Qed.

(** The cells of the title section can be bound when its number can. *)
Lemma title_section_binds (row : metadata) (sid : Z) (uid : str) (texts : list str) :
  getId row = Ok uid ->
  Sqlite.bind_errors [PyInt sid; PyStr uid; PyStr (title row); tag_of texts] =
  Sqlite.bind_error (PyInt sid).
Proof.
  intros Hi. destruct (metadata_decoded row) as (_ & _ & _ & _ & Ht & _).
  change (Sqlite.bind_errors [PyInt sid; PyStr uid; PyStr (title row); tag_of texts])
    with (match Sqlite.bind_error (PyInt sid) with
          | Some e => Some e
          | None => Sqlite.bind_errors [PyStr uid; PyStr (title row); tag_of texts]
          end).
  destruct (Sqlite.bind_error (PyInt sid)); [reflexivity |].
  apply bind_errors_supported. cbn [forallb].
  rewrite !supported_str, tag_of_supported;
    [reflexivity | exact Ht | apply (getId_encodable _ _ Hi)].
Qed.

Lemma has_article_section (stored : list Sqlite.entry) (sid : Z) (uid u : str)
  (text tags : obj) :
  has_article (stored ++ [section_entry sid uid text tags]) u = has_article stored u.
Proof.
  unfold has_article. rewrite key_taken_app. unfold Sqlite.key_taken at 2.
  cbn [existsb]. replace (str_eqb _ (lit "articles")) with false by reflexivity.
  cbn [andb orb]. rewrite orb_false_r. reflexivity.
Qed.

Lemma unused_from_article (stored : list Sqlite.entry) (sid : Z) (cells : list obj) :
  unused_from stored sid -> unused_from (stored ++ [article_entry cells]) sid.
Proof.
  intros H j Hj. rewrite key_taken_app, (H j Hj). unfold Sqlite.key_taken.
  cbn [existsb]. replace (str_eqb _ (lit "sections")) with false by reflexivity.
  reflexivity.
Qed.

Lemma run_row_eq (directory : str) (index sid : Z) (row : metadata) (w : world) :
  ready w -> unused_from (Sqlite.rows (db w)) sid ->
  run_row directory (index, sid) row w =
  match prepare directory row with
  | Ok d =>
      (after_row index sid d w,
       Ok (index + 1, sid + Z.of_nat (List.length (d_sections d)))%Z)
  | Raise e => (w, Raise e)
  end.
Proof.
  intros Hr Hu. unfold run_row, prepare.
  unfold bindM at 1, lift at 1.
  destruct (getId row) as [uid | e] eqn:Hi; cbn [bind]; [| reflexivity].
  unfold bindM at 1, lift at 1.
  destruct (getDate row) as [date | e] eqn:Hd; cbn [bind]; [| reflexivity].
  unfold bindM at 1, lift at 1.
  destruct (read directory uid) as [body | e]; cbn [bind]; [| reflexivity].
  unfold bindM at 1, lift at 1.
  destruct (getTags (PyStr (title row) :: body)) as [tags | e] eqn:Hg; cbn [bind];
    [| reflexivity].
  destruct (getTags_Ok_texts _ _ Hg) as [texts Ht].
  assert (Hs : tags = tag_of texts).
  { rewrite Ht, getTags_texts in Hg. injection Hg as <-. reflexivity. }
  unfold after_row. cbn [d_uid d_article d_sections d_tags].
  unfold bindM at 1.
  rewrite insert_article; [| exact Hr | rewrite Hs; apply (article_binds _ _ _ _ Hi Hd)].
  set (art := article_entry _).
  set (w1 := if has_article (Sqlite.rows (db w)) uid
             then say [ErrorInserting (PyStr uid) IntegrityError] w
             else store [art] w).
  replace (if has_article (Sqlite.rows (db w)) uid
           then (say [ErrorInserting (PyStr uid) IntegrityError] w, Ok tt)
           else (store [art] w, Ok tt)) with (w1, Ok tt)
    by (unfold w1; destruct (has_article _ _); reflexivity).
  assert (Hr1 : ready w1).
  { unfold w1. destruct (has_article _ _); [exact Hr | apply ready_store; exact Hr]. }
  assert (Hu1 : unused_from (Sqlite.rows (db w1)) sid).
  { unfold w1. destruct (has_article _ _); [exact Hu |].
    rewrite rows_store. apply unused_from_article. exact Hu. }
  clearbody w1.
  unfold bindM at 1.
  set (line := Printed _).
  set (w2 := if ((index + 1) mod 1000 =? 0)%Z then say [line] w1 else w1).
  replace ((if ((index + 1) mod 1000 =? 0)%Z then print _ else ret tt) w1)
    with (w2, @Ok unit tt)
    by (unfold w2; destruct ((index + 1) mod 1000 =? 0)%Z; reflexivity).
  assert (Hr2 : ready w2).
  { unfold w2. destruct ((index + 1) mod 1000 =? 0)%Z; exact Hr1. }
  assert (Hu2 : unused_from (Sqlite.rows (db w2)) sid).
  { unfold w2. destruct ((index + 1) mod 1000 =? 0)%Z; exact Hu1. }
  clearbody w2.
  unfold bindM at 1.
  rewrite (insert_sections uid tags (PyStr (title row) :: body) w2 sid Hr2 Hu2).
  unfold ret. reflexivity.
Qed.

Lemma ready_after_row (index sid : Z) (d : draft) (w : world) :
  ready w -> ready (after_row index sid d w).
Proof.
  intros Hr. unfold after_row. apply ready_store, ready_say.
  destruct ((index + 1) mod 1000 =? 0)%Z; destruct (has_article _ _);
    try apply ready_store; exact Hr.
Qed.

Lemma rows_after_row (index sid : Z) (d : draft) (w : world) :
  Sqlite.rows (db (after_row index sid d w)) =
  Sqlite.rows (db w) ++ draft_entries (Sqlite.rows (db w)) sid d.
Proof.
  unfold after_row, draft_entries. rewrite rows_store, rows_say.
  destruct ((index + 1) mod 1000 =? 0)%Z; destruct (has_article _ _); cbn [say db];
    rewrite ?rows_store, <- ?app_assoc; reflexivity.
Qed.

Lemma unused_from_sections (uid : str) (tags : obj) (sections : list obj) :
  forall (stored : list Sqlite.entry) (sid : Z),
    unused_from stored sid ->
    unused_from (stored ++ section_entries sid uid tags sections)
      (sid + Z.of_nat (List.length sections)).
Proof.
  induction sections as [| text sections IH]; intros stored sid H.
  - cbn [section_entries List.length]. rewrite app_nil_r, Z.add_0_r. exact H.
  - cbn [section_entries List.length].
    replace (sid + Z.of_nat (S (List.length sections)))%Z
      with (sid + 1 + Z.of_nat (List.length sections))%Z by lia.
    rewrite app_assoc. apply IH.
    destruct (Sqlite.bind_errors _).
    + rewrite app_nil_r. apply (unused_from_later _ sid); [lia | exact H].
    + apply unused_from_store. exact H.
Qed.

Lemma unused_from_draft (stored : list Sqlite.entry) (sid : Z) (d : draft) :
  unused_from stored sid ->
  unused_from (stored ++ draft_entries stored sid d)
    (sid + Z.of_nat (List.length (d_sections d))).
Proof.
  intros H. unfold draft_entries. rewrite app_assoc.
  apply unused_from_sections.
  destruct (has_article stored (d_uid d)).
  - rewrite app_nil_r. exact H.
  - apply unused_from_article. exact H.
Qed.

(** The loop of [run] over the rows, as a function of the rows. *)
Lemma run_loop_eq (directory : str) (rows : list metadata) :
  forall (st : Z * Z) (w : world),
    ready w -> unused_from (Sqlite.rows (db w)) (snd st) ->
    for_each rows (run_row directory) st w =
    (after_rows directory rows st w, counters_after directory rows st).
Proof.
  induction rows as [| row rows IH]; intros [index sid] w Hr Hu.
  - reflexivity.
  - cbn [for_each after_rows counters_after fst snd]. unfold bindM.
    rewrite (run_row_eq directory index sid row w Hr Hu).
    destruct (prepare directory row) as [d | e]; cbn [bind]; [| reflexivity].
    apply IH.
    + apply ready_after_row. exact Hr.
    + cbn [snd]. rewrite rows_after_row. apply unused_from_draft. exact Hu.
Qed.

Lemma ready_after_rows (directory : str) (rows : list metadata) :
  forall (st : Z * Z) (w : world), ready w -> ready (after_rows directory rows st w).
Proof.
  induction rows as [| row rows IH]; intros st w Hr; cbn [after_rows].
  - exact Hr.
  - destruct (prepare directory row); [| exact Hr].
    apply IH. apply ready_after_row. exact Hr.
Qed.

Lemma rows_after_rows (directory : str) (rows : list metadata) :
  forall (st : Z * Z) (w : world),
    Sqlite.rows (db (after_rows directory rows st w)) =
    stored_after directory rows (Sqlite.rows (db w)) (snd st).
Proof.
  induction rows as [| row rows IH]; intros st w; cbn [after_rows stored_after].
  - reflexivity.
  - destruct (prepare directory row); [| reflexivity].
    rewrite IH, rows_after_row. reflexivity.
Qed.

Lemma ready_opened (directory : str) : ready (opened directory).
Proof. split; reflexivity. Qed.

Lemma unused_from_nil (sid : Z) : unused_from [] sid.
Proof. intros j _. reflexivity. Qed.

(** [run] as a function of the rows: the loop runs from the world [opened];
    when no row raises, the run commits and closes; otherwise it stops where
    the row raised. *)
Lemma run_eq (directory : str) (rows : list metadata) :
  run directory rows start =
  let w := after_rows directory rows (0, 0)%Z (opened directory) in
  match counters_after directory rows (0, 0)%Z with
  | Ok st => (finished (fst st) w, Ok tt)
  | Raise e => (w, Raise e)
  end.
Proof.
  unfold run.
  unfold bindM at 1. unfold print at 1, emit at 1.
  unfold bindM at 1.
  replace (create ARTICLES (lit "articles") _) with
    (mkworld (Sqlite.mkconnection [(lit "articles", ARTICLES)] [] false false)
             [Printed (lit "Building articles.db from " ++ directory)], @Ok unit tt)
    by reflexivity.
  unfold bindM at 1.
  replace (create SECTIONS (lit "sections") _) with (opened directory, @Ok unit tt)
    by reflexivity.
  unfold bindM at 1.
  rewrite (run_loop_eq directory rows (0, 0)%Z (opened directory)
             (ready_opened directory) (unused_from_nil 0)).
  cbv zeta.
  destruct (counters_after directory rows (0, 0)%Z) as [[index sid] | e]; [| reflexivity].
  pose proof (ready_after_rows directory rows (0, 0)%Z (opened directory)
                (ready_opened directory)) as [Hc Ht].
  unfold bindM, print, emit, db_commit, db_close, Sqlite.commit, finished.
  cbn [db stdout Sqlite.closed]. rewrite Hc. reflexivity.
Qed.

(** ** Invariants of the store *)

Lemma has_article_app (a b : list Sqlite.entry) (uid : str) :
  has_article (a ++ b) uid = has_article a uid || has_article b uid.
Proof. apply key_taken_app. Qed.

Lemma references_earlier_app (l1 l2 : list Sqlite.entry) :
  forall before,
    references_earlier before (l1 ++ l2) <->
    references_earlier before l1 /\ references_earlier (before ++ l1) l2.
Proof.
  induction l1 as [| e l1 IH]; intros before; cbn [app references_earlier].
  - rewrite app_nil_r. tauto.
  - rewrite IH, <- app_assoc. cbn [app]. tauto.
Qed.

Lemma references_earlier_sections (uid : str) (tags : obj) (sections : list obj) :
  forall (before : list Sqlite.entry) (sid : Z),
    has_article before uid = true ->
    references_earlier before (section_entries sid uid tags sections).
Proof.
  induction sections as [| text sections IH]; intros before sid H;
    cbn [section_entries references_earlier].
  - exact I.
  - destruct (Sqlite.bind_errors _); cbn [app references_earlier].
    + apply IH. exact H.
    + split.
      * intros _. exists uid. split; [reflexivity | exact H].
      * apply IH. rewrite has_article_section. exact H.
Qed.

Lemma references_earlier_split (l : list Sqlite.entry) :
  forall pre before e after,
    references_earlier pre l -> l = before ++ e :: after ->
    fst e = lit "sections" ->
    exists uid, Sqlite.cell (snd e) (lit "Article") = PyStr uid /\
                has_article (pre ++ before) uid = true.
Proof.
  induction l as [| x l IH]; intros pre before e after H Hl He.
  - destruct before; discriminate.
  - destruct before as [| b before]; cbn [app] in Hl; injection Hl as -> ->.
    + rewrite app_nil_r. destruct H as [H _]. exact (H He).
    + destruct H as [_ H].
      destruct (IH (pre ++ [b]) before e after H eq_refl He) as [uid [Hc Ha]].
      exists uid. rewrite <- app_assoc in Ha. split; assumption.
Qed.

Lemma sections_of_app (a b : list Sqlite.entry) :
  sections_of (a ++ b) = sections_of a ++ sections_of b.
Proof. apply filter_app. Qed.

Lemma sections_of_section_entries (uid : str) (tags : obj) (sections : list obj) :
  forall sid, sections_of (section_entries sid uid tags sections) =
              section_entries sid uid tags sections.
Proof.
  induction sections as [| text sections IH]; intros sid; [reflexivity |].
  cbn [section_entries]. rewrite sections_of_app, IH.
  destruct (Sqlite.bind_errors _); reflexivity.
Qed.

(** Every section is stored or reported. *)
Lemma length_section_entries (uid : str) (tags : obj) (sections : list obj) :
  forall sid,
    (List.length (section_entries sid uid tags sections) +
     List.length (section_reports sid uid tags sections))%nat = List.length sections.
Proof.
  induction sections as [| text sections IH]; intros sid; [reflexivity |].
  cbn [section_entries section_reports List.length]. rewrite !length_app.
  specialize (IH (sid + 1)%Z).
  destruct (Sqlite.bind_errors _); cbn [List.length]; lia.
Qed.

Lemma filter_section_reports (uid : str) (tags : obj) (sections : list obj) :
  forall sid,
    filter is_section_report (section_reports sid uid tags sections) =
    section_reports sid uid tags sections.
Proof.
  induction sections as [| text sections IH]; intros sid; [reflexivity |].
  cbn [section_reports]. rewrite filter_app, IH.
  destruct (Sqlite.bind_errors _); reflexivity.
Qed.

Lemma section_ids_app (a b : list Sqlite.entry) :
  section_ids (a ++ b) = section_ids a ++ section_ids b.
Proof. unfold section_ids. rewrite sections_of_app. apply map_app. Qed.

Lemma ascending_lower (ids : list obj) (lo lo' hi : Z) :
  (lo' <= lo)%Z -> ascending lo ids hi -> ascending lo' ids hi.
Proof.
  destruct ids as [| [] ids]; cbn [ascending]; try tauto; [lia |].
  intros Hle [Hn H]. split; [lia | exact H].
Qed.

Lemma ascending_app (a b : list obj) :
  forall lo mid hi : Z,
    ascending lo a mid -> ascending mid b hi -> ascending lo (a ++ b) hi.
Proof.
  induction a as [| x a IH]; intros lo mid hi Ha Hb; cbn [app].
  - cbn [ascending] in Ha. apply (ascending_lower b mid); assumption.
  - destruct x; cbn [ascending] in *; try contradiction.
    destruct Ha as [Hn Ha]. split; [exact Hn |]. apply (IH _ mid); assumption.
Qed.

Lemma ascending_length (ids : list obj) :
  forall lo hi : Z, ascending lo ids hi -> (Z.of_nat (List.length ids) <= hi - lo)%Z.
Proof.
  induction ids as [| x ids IH]; intros lo hi H; cbn [ascending List.length] in *.
  - lia.
  - destruct x; try contradiction. destruct H as [Hn H].
    specialize (IH _ _ H). lia.
Qed.

(** Identifiers in increasing order that fill their range are the numbers
    of the range, one after the other. *)
Lemma ascending_full (ids : list obj) :
  forall (k : nat) (hi : Z),
    ascending (Z.of_nat k) ids hi ->
    (Z.of_nat (List.length ids) = hi - Z.of_nat k)%Z ->
    ids = map (fun i => PyInt (Z.of_nat i)) (seq k (List.length ids)).
Proof.
  induction ids as [| x ids IH]; intros k hi H Hl; [reflexivity |].
  cbn [ascending List.length] in *. destruct x; try contradiction.
  destruct H as [Hn H]. pose proof (ascending_length _ _ _ H) as Hlen.
  assert (n = Z.of_nat k) as -> by lia.
  cbn [seq map]. f_equal. apply (IH (S k) hi).
  - replace (Z.of_nat (S k)) with (Z.of_nat k + 1)%Z by lia. exact H.
  - lia.
Qed.

Lemma ascending_sections (uid : str) (tags : obj) (sections : list obj) :
  forall sid : Z,
    ascending sid (section_ids (section_entries sid uid tags sections))
      (sid + Z.of_nat (List.length sections)).
Proof.
  induction sections as [| text sections IH]; intros sid.
  - cbn [section_entries section_ids sections_of filter map ascending List.length]. lia.
  - cbn [section_entries List.length]. rewrite section_ids_app.
    specialize (IH (sid + 1)%Z).
    replace (sid + Z.of_nat (S (List.length sections)))%Z
      with (sid + 1 + Z.of_nat (List.length sections))%Z by lia.
    destruct (Sqlite.bind_errors _).
    + cbn [app]. apply (ascending_lower _ (sid + 1)); [lia | exact IH].
    + change (section_ids [section_entry sid uid text tags]) with [PyInt sid].
      cbn [app ascending]. split; [lia | exact IH].
Qed.

Lemma sections_of_article (b : bool) (cells : list obj) :
  sections_of (if b then [] else [article_entry cells]) = [].
Proof. destruct b; reflexivity. Qed.

Lemma consistent_draft (stored : list Sqlite.entry) (sid : Z) (d : draft) :
  has_article [article_entry (d_article d)] (d_uid d) = true ->
  consistent stored sid ->
  consistent (stored ++ draft_entries stored sid d)
    (sid + Z.of_nat (List.length (d_sections d))).
Proof.
  intros Hd (Hr & Hi). unfold draft_entries. split.
  - apply references_earlier_app. split; [exact Hr |]. cbn [app].
    apply references_earlier_app. split.
    + destruct (has_article stored (d_uid d)); [exact I |].
      split; [intros H; discriminate H | exact I].
    + apply references_earlier_sections. rewrite has_article_app.
      destruct (has_article stored (d_uid d)) eqn:E; [reflexivity |].
      rewrite Hd. reflexivity.
  - rewrite !section_ids_app.
    replace (section_ids (if has_article stored (d_uid d) then []
                          else [article_entry (d_article d)])) with (@nil obj)
      by (destruct (has_article stored (d_uid d)); reflexivity).
    cbn [app]. apply (ascending_app _ _ 0%Z sid); [exact Hi |].
    apply ascending_sections.
Qed.

Lemma prepare_inv (directory : str) (row : metadata) (d : draft) :
  prepare directory row = Ok d ->
  exists body date,
    getId row = Ok (d_uid d) /\
    getDate row = Ok date /\
    read directory (d_uid d) = Ok body /\
    d_sections d = PyStr (title row) :: body /\
    getTags (d_sections d) = Ok (d_tags d) /\
    d_article d =
      [PyStr (d_uid d); PyStr (source_x row); date; PyStr (journal row);
       PyStr (getAuthors row); PyStr (title row); d_tags d; PyStr (getReference row)].
Proof.
  unfold prepare. intros H.
  destruct (getId row) as [uid |]; cbn [bind] in H; [| discriminate].
  destruct (getDate row) as [date |]; cbn [bind] in H; [| discriminate].
  destruct (read directory uid) as [body |] eqn:Hb; cbn [bind] in H; [| discriminate].
  destruct (getTags _) as [tags |] eqn:Hg; cbn [bind] in H; [| discriminate].
  injection H as <-. exists body, date. cbn [d_uid d_sections d_tags d_article].
  repeat split; assumption || reflexivity.
Qed.

Lemma prepare_article_id (directory : str) (row : metadata) (d : draft) :
  prepare directory row = Ok d ->
  has_article [article_entry (d_article d)] (d_uid d) = true.
Proof.
  intros H. destruct (prepare_inv _ _ _ H) as (body & date & _ & _ & _ & _ & _ & Ha).
  rewrite Ha. unfold has_article, Sqlite.key_taken. cbn [existsb].
  replace (str_eqb _ (lit "articles")) with true by reflexivity.
  replace (Sqlite.cell _ _) with (PyStr (d_uid d)) by reflexivity.
  cbn [Sqlite.key_eqb andb orb]. rewrite str_eqb_refl. reflexivity.
Qed.

Lemma consistent_stored_after (directory : str) (rows : list metadata) :
  forall (stored : list Sqlite.entry) (sid : Z),
    consistent stored sid ->
    exists sid', consistent (stored_after directory rows stored sid) sid'.
Proof.
  induction rows as [| row rows IH]; intros stored sid H; cbn [stored_after].
  - exists sid. exact H.
  - destruct (prepare directory row) as [d |] eqn:Hp; [| exists sid; exact H].
    apply IH. apply consistent_draft; [| exact H].
    apply (prepare_article_id _ _ _ Hp).
Qed.

Lemma consistent_nil : consistent [] 0.
Proof. split; [exact I | cbn; lia]. Qed.

Lemma rows_run (directory : str) (rows : list metadata) :
  Sqlite.rows (db (fst (run directory rows start))) = stored_after directory rows [] 0.
Proof.
  rewrite run_eq. cbv zeta.
  destruct (counters_after directory rows (0, 0)%Z); cbn [fst finished db Sqlite.rows];
    apply rows_after_rows.
Qed.

(** ** Section numbering and references: [run] *)

Lemma read_paragraphs (directory uid : str) (m : list (str * obj)) (texts : list obj) :
  truthy uid = true ->
  fs (path_join directory [lit "articles"; uid ++ lit ".json"]) = Some (Ok (PyDict m)) ->
  dict_get m (lit "body_text") =
    Ok (PyList (map (fun t => PyDict [(lit "text", t)]) texts)) ->
  read directory uid = Ok texts.
Proof.
  intros Hu Hf Hb. unfold read. rewrite Hu, Hf. cbn [bind subscript].
  rewrite Hb. cbn [bind iterate]. clear.
  induction texts as [| t texts IH]; [reflexivity |].
  cbn [map map_res]. rewrite IH. reflexivity.
Qed.

Lemma stdout_after_row_eq (index sid : Z) (d : draft) (w : world) :
  stdout (after_row index sid d w) =
  stdout w ++
  (if has_article (Sqlite.rows (db w)) (d_uid d)
   then [ErrorInserting (PyStr (d_uid d)) IntegrityError] else []) ++
  (if ((index + 1) mod 1000 =? 0)%Z
   then [Printed (lit "Inserted " ++ str_of_int (index + 1) ++ lit " articles")]
   else []) ++
  section_reports sid (d_uid d) (d_tags d) (d_sections d).
Proof.
  unfold after_row. rewrite stdout_store, stdout_say.
  destruct ((index + 1) mod 1000 =? 0)%Z; destruct (has_article _ _);
    cbn [say stdout]; rewrite ?stdout_store; cbn [say stdout app];
    rewrite <- ?app_assoc; reflexivity.
Qed.

(** The sections stored and the sections reported, counted together. *)
Lemma attempts_after_row (index sid : Z) (d : draft) (w : world) :
  (List.length (sections_of (Sqlite.rows (db (after_row index sid d w)))) +
   List.length (filter is_section_report (stdout (after_row index sid d w))))%nat =
  (List.length (sections_of (Sqlite.rows (db w))) +
   List.length (filter is_section_report (stdout w)) +
   List.length (d_sections d))%nat.
Proof.
  rewrite rows_after_row, stdout_after_row_eq. unfold draft_entries.
  rewrite !sections_of_app, sections_of_article, sections_of_section_entries.
  rewrite !filter_app, filter_section_reports, !length_app.
  pose proof (length_section_entries (d_uid d) (d_tags d) (d_sections d) sid) as Hl.
  destruct (has_article _ _); destruct ((index + 1) mod 1000 =? 0)%Z;
    cbn [filter is_section_report List.length]; lia.
Qed.

Lemma numbered_after_rows (directory : str) (rows : list metadata) :
  forall (st : Z * Z) (w : world),
    consistent (Sqlite.rows (db w)) (snd st) ->
    (Z.of_nat (List.length (sections_of (Sqlite.rows (db w))) +
               List.length (filter is_section_report (stdout w))) = snd st)%Z ->
    exists sid' : Z,
      consistent (Sqlite.rows (db (after_rows directory rows st w))) sid' /\
      (Z.of_nat
         (List.length (sections_of (Sqlite.rows (db (after_rows directory rows st w)))) +
          List.length (filter is_section_report (stdout (after_rows directory rows st w)))) =
       sid')%Z.
Proof.
  induction rows as [| row rows IH]; intros st w Hc Hn; cbn [after_rows].
  - exists (snd st). split; assumption.
  - destruct (prepare directory row) as [d |] eqn:Hp; [| exists (snd st); split; assumption].
    apply IH; cbn [snd].
    + rewrite rows_after_row. apply consistent_draft; [| exact Hc].
      apply (prepare_article_id _ _ _ Hp).
    + rewrite attempts_after_row. lia.
Qed.

Lemma numbered_run (directory : str) (rows : list metadata) :
  exists sid' : Z,
    consistent (Sqlite.rows (db (fst (run directory rows start)))) sid' /\
    (Z.of_nat
       (List.length (sections_of (Sqlite.rows (db (fst (run directory rows start))))) +
        List.length (filter is_section_report (stdout (fst (run directory rows start))))) =
     sid')%Z.
Proof.
  destruct (numbered_after_rows directory rows (0, 0)%Z (opened directory)
              consistent_nil eq_refl) as (sid' & Hc & Hn).
  exists sid'. rewrite run_eq. cbv zeta.
  destruct (counters_after directory rows (0, 0)%Z); cbn [fst]; [| split; assumption].
  unfold finished. cbn [db stdout Sqlite.rows].
  rewrite filter_app. cbn [filter is_section_report]. rewrite app_nil_r.
  split; assumption.
Qed.

Lemma In_section_entries (uid : str) (tags : obj) (sections : list obj) :
  forall (sid : Z) (e : Sqlite.entry),
    In e (section_entries sid uid tags sections) <->
    exists (i : nat) (text : obj),
      nth_error sections i = Some text /\
      Sqlite.bind_errors [PyInt (sid + Z.of_nat i); PyStr uid; text; tags] = None /\
      e = section_entry (sid + Z.of_nat i) uid text tags.
Proof.
  induction sections as [| text sections IH]; intros sid e; cbn [section_entries].
  - split; [intros [] | intros (i & t & H & _)]. destruct i; discriminate H.
  - rewrite in_app_iff, IH. split.
    + intros [H | (i & t & Hn & Hb & He)].
      * exists 0%nat, text. rewrite Z.add_0_r.
        destruct (Sqlite.bind_errors _); [destruct H |].
        destruct H as [<- | []]. repeat split.
      * exists (S i), t. replace (sid + Z.of_nat (S i))%Z with (sid + 1 + Z.of_nat i)%Z by lia.
        repeat split; assumption.
    + intros (i & t & Hn & Hb & He). destruct i as [| i].
      * left. cbn [nth_error] in Hn. injection Hn as <-.
        rewrite Z.add_0_r in Hb, He. rewrite Hb. left. symmetry. exact He.
      * right. exists i, t.
        replace (sid + 1 + Z.of_nat i)%Z with (sid + Z.of_nat (S i))%Z by lia.
        repeat split; assumption.
Qed.

Lemma draft_entries_title (directory : str) (row : metadata) (d : draft)
  (stored : list Sqlite.entry) (sid : Z) :
  prepare directory row = Ok d ->
  exists body,
    read directory (d_uid d) = Ok body /\
    draft_entries stored sid d =
      (if has_article stored (d_uid d) then [] else [article_entry (d_article d)]) ++
      (if Sqlite.supported (PyInt sid)
       then [section_entry sid (d_uid d) (PyStr (title row)) (d_tags d)] else []) ++
      section_entries (sid + 1) (d_uid d) (d_tags d) body.
Proof.
  intros Hp.
  destruct (prepare_inv _ _ _ Hp) as (body & date & Hi & _ & Hb & Hsec & Hg & _).
  exists body. split; [exact Hb |].
  destruct (getTags_Ok_texts _ _ Hg) as [texts Ht].
  rewrite Ht, getTags_texts in Hg. injection Hg as Hg.
  unfold draft_entries. rewrite Hsec. cbn [section_entries].
  rewrite <- Hg, (title_section_binds row sid (d_uid d) texts Hi).
  unfold Sqlite.supported. destruct (Sqlite.bind_error (PyInt sid)); reflexivity.
Qed.

(** C2, as the code has it: the counter of the sections starts at 0 and
    advances by one for every section the loop comes to, stored or refused,
    so the rows of [sections] are numbered in increasing order over the
    whole run, with a gap where an insert was refused, and 0, 1, 2, ... when
    none was; the store is the rows of [metadata.csv] in order, each giving
    its article and then its sections, the title first and the paragraphs
    of the side-car after it in their order, the section at position [i]
    under the number of the first plus [i]; every row of [sections] names
    an article stored before it. *)
Theorem run_numbers_sections_after_their_article :
  forall (directory : str) (rows : list metadata),
    let w := fst (run directory rows start) in
    let stored := Sqlite.rows (db w) in
    stored = stored_after directory rows [] 0 /\
    (exists hi : Z, ascending 0 (section_ids stored) hi) /\
    (filter is_section_report (stdout w) = [] ->
     section_ids stored = counting (List.length (sections_of stored))) /\
    (forall before e after,
       stored = before ++ e :: after -> fst e = lit "sections" ->
       exists uid, Sqlite.cell (snd e) (lit "Article") = PyStr uid /\
                   has_article before uid = true) /\
    (forall row d stored0 sid,
       prepare directory row = Ok d ->
       exists body,
         read directory (d_uid d) = Ok body /\
         draft_entries stored0 sid d =
           (if has_article stored0 (d_uid d) then []
            else [article_entry (d_article d)]) ++
           (if Sqlite.supported (PyInt sid)
            then [section_entry sid (d_uid d) (PyStr (title row)) (d_tags d)]
            else []) ++
           section_entries (sid + 1) (d_uid d) (d_tags d) body) /\
    (forall sid uid tags sections e,
       In e (section_entries sid uid tags sections) <->
       exists (i : nat) (text : obj),
         nth_error sections i = Some text /\
         Sqlite.bind_errors [PyInt (sid + Z.of_nat i); PyStr uid; text; tags] = None /\
         e = section_entry (sid + Z.of_nat i) uid text tags) /\
    (forall uid m texts,
       truthy uid = true ->
       fs (path_join directory [lit "articles"; uid ++ lit ".json"]) =
         Some (Ok (PyDict m)) ->
       dict_get m (lit "body_text") =
         Ok (PyList (map (fun t => PyDict [(lit "text", t)]) texts)) ->
       read directory uid = Ok texts).
Proof.
  intros directory rows. cbv zeta.
  destruct (numbered_run directory rows) as (sid' & [Hr Hi] & Hn).
  set (stored := Sqlite.rows (db (fst (run directory rows start)))) in *.
  split; [apply rows_run |].
  split; [exists sid'; exact Hi |].
  split.
  { intros Hnone. rewrite Hnone in Hn. cbn [List.length] in Hn.
    unfold counting.
    replace (List.length (sections_of stored)) with (List.length (section_ids stored))
      by (unfold section_ids; apply length_map).
    apply (ascending_full _ 0 sid' Hi).
    unfold section_ids. rewrite length_map. rewrite Nat.add_0_r in Hn.
    cbn [Z.of_nat]. rewrite Z.sub_0_r. exact Hn. }
  split.
  { intros before e after Hl He.
    apply (references_earlier_split _ [] before e after Hr Hl He). }
  split.
  { intros row d stored0 sid Hp. apply (draft_entries_title _ _ _ _ _ Hp). }
  split.
  { intros sid uid tags sections e. apply In_section_entries. }
  apply read_paragraphs.
Qed.

(** ** Rejected articles: [insert] and [run_row] *)





(** ** Tags on the stored rows *)



(** ** Side-car documents: [read] *)

Lemma counters_after_app (directory : str) (before rest : list metadata) :
  forall st : Z * Z,
    counters_after directory (before ++ rest) st =
    bind (counters_after directory before st) (counters_after directory rest).
Proof.
  induction before as [| row before IH]; intros st; cbn [app counters_after bind].
  - reflexivity.
  - destruct (prepare directory row); cbn [bind]; [apply IH | reflexivity].
Qed.

Lemma after_rows_app (directory : str) (before rest : list metadata) :
  forall (st : Z * Z) (w : world),
    after_rows directory (before ++ rest) st w =
    match counters_after directory before st with
    | Ok st' => after_rows directory rest st' (after_rows directory before st w)
    | Raise _ => after_rows directory before st w
    end.
Proof.
  induction before as [| row before IH]; intros st w; cbn [app after_rows counters_after bind].
  - reflexivity.
  - destruct (prepare directory row); cbn [bind]; [apply IH | reflexivity].
Qed.

Lemma getDate_returns (row : metadata) : exists date, getDate row = Ok date.
Proof.
  rewrite getDate_unfold. destruct (truthy (publish_time row)); eexists; reflexivity.
Qed.

Lemma prepare_read_raises (directory : str) (row : metadata) (uid : str) (e : exn) :
  getId row = Ok uid -> read directory uid = Raise e ->
  prepare directory row = Raise e.
Proof.
  intros Hi Hr. unfold prepare. rewrite Hi. cbn [bind].
  destruct (getDate_returns row) as [date ->]. cbn [bind]. rewrite Hr. reflexivity.
Qed.

Lemma committed_store (es : list Sqlite.entry) (w : world) :
  Sqlite.committed (db w) = false -> Sqlite.committed (db (store es w)) = false.
Proof. intros H. destruct es; [exact H | reflexivity]. Qed.

Lemma committed_say (evs : list event) (w : world) :
  Sqlite.committed (db (say evs w)) = Sqlite.committed (db w).
Proof. destruct evs; reflexivity. Qed.

Lemma committed_after_row (index sid : Z) (d : draft) (w : world) :
  Sqlite.committed (db w) = false ->
  Sqlite.committed (db (after_row index sid d w)) = false.
Proof.
  intros H. unfold after_row. apply committed_store. rewrite committed_say.
  destruct ((index + 1) mod 1000 =? 0)%Z; destruct (has_article _ _);
    rewrite ?committed_say; try apply committed_store; exact H.
Qed.

Lemma committed_after_rows (directory : str) (rows : list metadata) :
  forall (st : Z * Z) (w : world),
    Sqlite.committed (db w) = false ->
    Sqlite.committed (db (after_rows directory rows st w)) = false.
Proof.
  induction rows as [| row rows IH]; intros st w H; cbn [after_rows].
  - exact H.
  - destruct (prepare directory row); [| exact H].
    apply IH. apply committed_after_row. exact H.
Qed.

(** C3, as the code has it: [read] returns the empty list when the
    identifier is empty, whatever files there are, and when the side-car
    file does not exist; when the file is there and the decoder raises on
    it, [read] raises the same, nothing catches it, and the run stops at
    that row: the world is what the rows before it left, so nothing is
    reported for the row and nothing is committed or closed. *)
Theorem read_missing_is_empty_and_malformed_stops_run :
  (forall directory : str, read directory [] = Ok []) /\
  (forall directory uid : str,
     fs (path_join directory [lit "articles"; uid ++ lit ".json"]) = None ->
     read directory uid = Ok []) /\
  (forall (directory uid : str) (e : exn),
     truthy uid = true ->
     fs (path_join directory [lit "articles"; uid ++ lit ".json"]) = Some (Raise e) ->
     read directory uid = Raise e) /\
  (forall (directory : str) (before : list metadata) (row : metadata)
          (after : list metadata) (uid : str) (e : exn) (st : Z * Z),
     counters_after directory before (0, 0)%Z = Ok st ->
     getId row = Ok uid ->
     read directory uid = Raise e ->
     run directory (before ++ row :: after) start =
       (after_rows directory before (0, 0)%Z (opened directory), Raise e) /\
     Sqlite.rows (db (after_rows directory before (0, 0)%Z (opened directory))) =
       stored_after directory before [] 0 /\
     Sqlite.committed (db (after_rows directory before (0, 0)%Z (opened directory))) = false /\
     Sqlite.closed (db (after_rows directory before (0, 0)%Z (opened directory))) = false).
Proof.
  split; [reflexivity |].
  split; [| split].
  - intros directory uid H. unfold read. rewrite H. destruct (truthy uid); reflexivity.
  - intros directory uid e Hu H. unfold read. rewrite Hu, H. reflexivity.
  - intros directory before row after uid e st Hb Hi Hr.
    pose proof (prepare_read_raises directory row uid e Hi Hr) as Hp.
    repeat split.
    + rewrite run_eq. cbv zeta.
      rewrite counters_after_app, after_rows_app, Hb.
      cbn [bind counters_after after_rows]. rewrite Hp. reflexivity.
    + apply rows_after_rows.
    + apply committed_after_rows. reflexivity.
    + apply (ready_after_rows directory before (0, 0)%Z (opened directory)
               (ready_opened directory)).
Qed.

(** ** Table creation: [create] *)

Lemma dict_get_app_new {A} (d : list (str * A)) (key : str) (v : A) :
  (forall x, dict_get d key <> Ok x) -> dict_get (d ++ [(key, v)]) key = Ok v.
Proof.
  induction d as [| [k x] d IH]; intros H; cbn [app dict_get] in *.
  - rewrite str_eqb_refl. reflexivity.
  - destruct (str_eqb k key); [exfalso; apply (H x); reflexivity | apply IH; exact H].
Qed.

(** C7, as the code has it: a successful [create] leaves a second one
    nothing to do; a [create] whose statement the store refuses prints the
    statement and then raises [TypeError] to its caller, from the
    concatenation in its handler. *)
Theorem create_failure_escapes_as_TypeError :
  (forall (table : Sqlite.schema) (name : str) (w w1 : world),
     create table name w = (w1, Ok tt) -> create table name w1 = (w1, Ok tt)) /\
  (forall (table : Sqlite.schema) (name : str) (w : world) (e : exn),
     Sqlite.execute (db w)
       (Sqlite.CreateTableIfNotExists
          (CREATE_TABLE name
             (join (lit ", ") (map (fun nc => fst nc ++ lit " " ++ snd nc) table)))
          name table) = Raise e ->
     create table name w =
       (say [Printed (CREATE_TABLE name
                        (join (lit ", ")
                           (map (fun nc => fst nc ++ lit " " ++ snd nc) table)))] w,
        Raise TypeError)) /\
  create [] (lit "articles") start =
    (say [Printed (lit "CREATE TABLE IF NOT EXISTS articles ()")] start,
     Raise TypeError).
Proof.
  split; [| split].
  - intros table name w w1. unfold create, try_except, db_execute, bindM, print, emit, lift.
    cbn [str_plus_exn].
    destruct (Sqlite.execute (db w) _) as [c |] eqn:He; [| discriminate].
    intros H. injection H as <-. cbn [db stdout].
    unfold Sqlite.execute in *.
    destruct (Sqlite.closed (db w)) eqn:Hc; [discriminate |].
    destruct table as [| f table]; [discriminate |].
    destruct (Sqlite.lookup_table (db w) name) eqn:Hl.
    + injection He as <-. rewrite Hc, Hl. reflexivity.
    + destruct (Sqlite.has_duplicate _); [discriminate |].
      injection He as <-. cbn [Sqlite.closed].
      unfold Sqlite.lookup_table in *. cbn [Sqlite.tables].
      rewrite dict_get_app_new; [reflexivity |].
      intros x Hx. rewrite Hx in Hl. discriminate.
  - intros table name w e H.
    unfold create, try_except, db_execute, bindM, print, emit, lift.
    rewrite H. reflexivity.
  - reflexivity.
Qed.

(** ** Further properties: references *)

(** X3: normalising a reference twice is the same as normalising it once:
    [getReference] leaves its own result unchanged. *)
Theorem getReference_idempotent :
  forall row row' : metadata,
    doi row' = getReference row -> getReference row' = getReference row.
Proof.
  intros row row' H. unfold getReference at 1. rewrite H. unfold getReference.
  destruct (truthy (doi row) && negb (startswith (doi row) (lit "http"))
            && negb (startswith (doi row) (lit "doi.org"))) eqn:E.
  - reflexivity.
  - rewrite E. reflexivity.
Qed.

(** ** Further properties: authors *)

Lemma quoted_from_outside (s : str) :
  quoted_from s None =
  match upto_quote s with
  | Some (_, s1) => quoted_from s1 (Some [])
  | None => []
  end.
Proof.
  induction s as [| c s IH]; cbn [quoted_from upto_quote]; [reflexivity |].
  destruct (c =? 39); [reflexivity |].
  etransitivity; [exact IH |]. destruct (upto_quote s) as [[a b] |]; reflexivity.
Qed.

Lemma upto_quote_count (s body s2 : str) :
  upto_quote s = Some (body, s2) ->
  List.length (filter (N.eqb 39) s) = S (List.length (filter (N.eqb 39) s2)).
Proof.
  revert body s2. induction s as [| c s IH]; intros body s2 H; cbn [upto_quote] in H.
  - discriminate.
  - cbn [filter]. rewrite (N.eqb_sym 39 c). destruct (c =? 39).
    + injection H as _ <-. reflexivity.
    + destruct (upto_quote s) as [[a b] |]; [| discriminate].
      injection H as _ <-. apply (IH a b eq_refl).
Qed.

Lemma quoted_needs_two_quotes (s : str) :
  (List.length (filter (N.eqb 39) s) < 2)%nat -> quoted s = [].
Proof.
  intros H. unfold quoted. rewrite quoted_from_outside.
  destruct (upto_quote s) as [[a s1] |] eqn:H1; [| reflexivity].
  rewrite (upto_quote_count _ _ _ H1) in H.
  destruct (upto_quote s1) as [[b s2] |] eqn:H2.
  - rewrite (upto_quote_count _ _ _ H2) in H. lia.
  - apply (quoted_from_no_quote s1 H2).
Qed.

(** X4: an authors value with a bracket and fewer than two quotes has no
    quoted substring, so [getAuthors] returns the empty string for it. *)
Theorem getAuthors_without_quoted_pair_is_empty :
  forall row : metadata,
    truthy (authors row) = true ->
    contains (lit "[") (authors row) = true ->
    (List.length (filter (N.eqb 39) (authors row)) < 2)%nat ->
    getAuthors row = [].
Proof.
  intros row Ht Hc Hq. unfold getAuthors.
  rewrite Ht, Hc, findall_authors_quoted, (quoted_needs_two_quotes _ Hq).
  reflexivity.
Qed.

Lemma lstrip_no_quote (s : str) :
  forallb (fun c => negb (c =? 39)) s = true ->
  forallb (fun c => negb (c =? 39)) (lstrip s) = true.
Proof.
  induction s as [| c s IH]; cbn [lstrip forallb]; [reflexivity |].
  intros H. apply andb_true_iff in H. destruct H as [Hc Hs].
  destruct (isspace c); [apply IH; exact Hs |].
  cbn [forallb]. rewrite Hc, Hs. reflexivity.
Qed.

Lemma rstrip_no_quote (s : str) :
  forallb (fun c => negb (c =? 39)) s = true ->
  forallb (fun c => negb (c =? 39)) (rstrip s) = true.
Proof.
  induction s as [| c s IH]; [reflexivity |].
  intros H. cbn [forallb] in H. apply andb_true_iff in H. destruct H as [Hc Hs].
  cbn [rstrip]. destruct (forallb isspace (c :: s)); [reflexivity |].
  cbn [forallb]. rewrite Hc, (IH Hs). reflexivity.
Qed.

Lemma rstrip_keeps_text (s : str) :
  forallb isspace s = false -> forallb isspace (rstrip s) = false.
Proof.
  induction s as [| c s IH]; [discriminate |].
  intros H. cbn [rstrip]. rewrite H. cbn [forallb] in *.
  destruct (isspace c); [| reflexivity]. cbn [andb] in *. apply IH. exact H.
Qed.

Lemma rstrip_rstrip (s : str) : rstrip (rstrip s) = rstrip s.
Proof.
  induction s as [| c s IH]; [reflexivity |].
  cbn [rstrip]. destruct (forallb isspace (c :: s)) eqn:E; [reflexivity |].
  cbn [rstrip].
  assert (E' : forallb isspace (c :: rstrip s) = false).
  { cbn [forallb] in *. destruct (isspace c); [| reflexivity].
    cbn [andb] in *. apply rstrip_keeps_text. exact E. }
  rewrite E', IH. reflexivity.
Qed.

Lemma lstrip_strip (s : str) : lstrip (strip s) = strip s.
Proof.
  unfold strip. induction s as [| c s IH]; [reflexivity |].
  cbn [lstrip]. destruct (isspace c) eqn:E; [exact IH |].
  cbn [rstrip forallb]. rewrite E. cbn [andb lstrip]. rewrite E. reflexivity.
Qed.

Lemma strip_clean (s : str) :
  forallb (fun c => negb (c =? 39)) s = true -> clean_name (strip s).
Proof.
  intros H. split; [| split].
  - unfold strip. apply rstrip_no_quote, lstrip_no_quote, H.
  - apply lstrip_strip.
  - unfold strip. apply rstrip_rstrip.
Qed.

Lemma no_quote_rev (s : str) :
  forallb (fun c => negb (c =? 39)) s = true ->
  forallb (fun c => negb (c =? 39)) (rev s) = true.
Proof.
  intros H. apply forallb_forall. intros c Hc.
  apply in_rev in Hc. revert c Hc. apply forallb_forall. exact H.
Qed.

Lemma quoted_from_clean (s : str) :
  forall (inside : option str) (g : str),
    match inside with
    | Some acc => forallb (fun c => negb (c =? 39)) acc = true
    | None => True
    end ->
    In g (quoted_from s inside) -> clean_name g.
Proof.
  induction s as [| c s IH]; intros inside g Hacc Hin; cbn [quoted_from] in Hin.
  - destruct Hin.
  - destruct (c =? 39) eqn:Hc.
    + destruct inside as [acc |].
      * destruct Hin as [<- | Hin].
        -- apply strip_clean, no_quote_rev, Hacc.
        -- apply (IH None g I Hin).
      * apply (IH (Some []) g eq_refl Hin).
    + destruct inside as [acc |].
      * apply (IH (Some (c :: acc)) g); [| exact Hin].
        cbn [forallb]. rewrite Hc, Hacc. reflexivity.
      * apply (IH None g I Hin).
Qed.

(** X5: when an authors value is read as a list, [getAuthors] joins names
    none of which holds a quote or starts or ends with a blank. *)
Theorem getAuthors_joins_clean_names :
  forall row : metadata,
    truthy (authors row) = true ->
    contains (lit "[") (authors row) = true ->
    exists names : list str,
      getAuthors row = join (lit "; ") names /\
      forall g, In g names -> clean_name g.
Proof.
  intros row Ht Hc. exists (quoted (authors row)). split.
  - unfold getAuthors. rewrite Ht, Hc, findall_authors_quoted. reflexivity.
  - intros g Hin. apply (quoted_from_clean (authors row) None g I Hin).
Qed.

(** ** Further properties: tags *)

Lemma getTags_non_text (sections : list obj) :
  forall acc : obj,
    forallb is_text sections = false ->
    for_res sections
      (fun tags text =>
         low <- obj_lower text ;;
         if existsb (fun x => contains x low) keywords
         then Ok (PyStr (lit "COVID-19"))
         else Ok tags)
      acc = Raise AttributeError.
Proof.
  set (body := fun (tags text : obj) => _).
  induction sections as [| o sections IH]; intros acc H; [discriminate H |].
  cbn [forallb for_res] in *. unfold body at 1.
  destruct o; cbn [is_text obj_lower bind andb] in *; try reflexivity.
  destruct (existsb _ keywords); cbn [bind]; apply IH; exact H.
Qed.

Lemma forallb_is_text (sections : list obj) :
  forallb is_text sections = true -> exists texts, sections = map PyStr texts.
Proof.
  induction sections as [| o sections IH]; intros H.
  - exists []. reflexivity.
  - cbn [forallb] in H. apply andb_true_iff in H. destruct H as [Ho Hs].
    destruct (IH Hs) as [texts ->]. destruct o; try discriminate Ho.
    exists (s :: texts). reflexivity.
Qed.

Lemma run_stops_at (directory : str) (before : list metadata) (row : metadata)
  (after : list metadata) (st : Z * Z) (e : exn) :
  counters_after directory before (0, 0)%Z = Ok st ->
  prepare directory row = Raise e ->
  run directory (before ++ row :: after) start =
  (after_rows directory before (0, 0)%Z (opened directory), Raise e).
Proof.
  intros Hb Hp. rewrite run_eq. cbv zeta.
  rewrite counters_after_app, after_rows_app, Hb.
  cbn [bind counters_after after_rows]. rewrite Hp. reflexivity.
Qed.

(** X6: [getTags] returns, with the label or [None], when every section is a
    string, and raises [AttributeError] as soon as one is not; a side-car
    paragraph whose text is no string therefore stops the run at its row. *)
Theorem getTags_raises_on_non_text :
  (forall sections : list obj,
     forallb is_text sections = true ->
     getTags sections = Ok PyNone \/ getTags sections = Ok (PyStr (lit "COVID-19"))) /\
  (forall sections : list obj,
     forallb is_text sections = false -> getTags sections = Raise AttributeError) /\
  (forall (directory : str) (before : list metadata) (row : metadata)
          (after : list metadata) (uid : str) (body : list obj) (st : Z * Z),
     counters_after directory before (0, 0)%Z = Ok st ->
     getId row = Ok uid -> read directory uid = Ok body ->
     forallb is_text body = false ->
     run directory (before ++ row :: after) start =
       (after_rows directory before (0, 0)%Z (opened directory), Raise AttributeError)).
Proof.
  split; [| split].
  - intros sections H. destruct (forallb_is_text _ H) as [texts ->].
    rewrite getTags_texts. unfold tag_of.
    destruct (existsb mentions_keyword texts); [right | left]; reflexivity.
  - intros sections H. apply (getTags_non_text sections PyNone H).
  - intros directory before row after uid body st Hb Hi Hr Ht.
    apply (run_stops_at directory before row after st AttributeError Hb).
    unfold prepare. rewrite Hi. cbn [bind].
    destruct (getDate_returns row) as [date ->]. cbn [bind]. rewrite Hr. cbn [bind].
    replace (getTags (PyStr (title row) :: body)) with (@Raise obj AttributeError);
      [reflexivity |].
    symmetry. apply (getTags_non_text (PyStr (title row) :: body) PyNone).
    cbn [forallb is_text andb]. exact Ht.
Qed.

Lemma existsb_permutation {A} (f : A -> bool) (l l' : list A) :
  Permutation l l' -> existsb f l = existsb f l'.
Proof.
  induction 1 as [| x l l' _ IH | x y l | l l' l'' _ IH1 _ IH2]; cbn [existsb].
  - reflexivity.
  - rewrite IH. reflexivity.
  - destruct (f x), (f y); reflexivity.
  - rewrite IH1. exact IH2.
Qed.

(** X7: the tag does not depend on the order of the sections, and a list of
    sections has it exactly when one of its two parts has it. *)
Theorem getTags_ignores_order :
  (forall texts texts' : list str,
     Permutation texts texts' ->
     getTags (map PyStr texts) = getTags (map PyStr texts')) /\
  (forall a b : list str,
     getTags (map PyStr (a ++ b)) = Ok (PyStr (lit "COVID-19")) <->
     getTags (map PyStr a) = Ok (PyStr (lit "COVID-19")) \/
     getTags (map PyStr b) = Ok (PyStr (lit "COVID-19"))).
Proof.
  split.
  - intros texts texts' H. rewrite !getTags_texts. unfold tag_of.
    rewrite (existsb_permutation mentions_keyword _ _ H). reflexivity.
  - intros a b. rewrite !getTags_texts. unfold tag_of. rewrite existsb_app.
    destruct (existsb mentions_keyword a), (existsb mentions_keyword b); cbn [orb];
      split; intros H; try reflexivity; try discriminate H;
      try (left; reflexivity); try (right; reflexivity);
      destruct H as [H | H]; discriminate H.
Qed.

(** ** Further properties: [values], [insert] and [create] *)

Lemma map_res_Ok_inv {A B} (f : A -> res B) (l : list A) (out : list B) :
  map_res f l = Ok out ->
  List.length out = List.length l /\ forall a, In a l -> exists b, f a = Ok b.
Proof.
  revert out. induction l as [| a l IH]; intros out H; cbn [map_res] in H.
  - injection H as <-. split; [reflexivity | intros a []].
  - destruct (f a) as [b |] eqn:Hb; cbn [bind] in H; [| discriminate].
    destruct (map_res f l) as [bs |]; cbn [bind] in H; [| discriminate].
    injection H as <-. destruct (IH bs eq_refl) as [Hl Hin]. split.
    + cbn [List.length]. rewrite Hl. reflexivity.
    + intros x [<- | Hx]; [exists b; exact Hb | apply Hin, Hx].
Qed.

Lemma in_enumerate_from {A} (d : A) (l : list A) :
  forall k j : nat,
    (j < List.length l)%nat ->
    In ((k + j)%nat, nth j l d) (combine (seq k (List.length l)) l).
Proof.
  induction l as [| a l IH]; intros k j Hj; cbn [List.length] in *; [lia |].
  cbn [seq combine]. destruct j as [| j].
  - left. rewrite Nat.add_0_r. reflexivity.
  - right. replace (k + S j)%nat with (S k + j)%nat by lia.
    cbn [nth]. apply IH. lia.
Qed.

Lemma coerced_cell_Ok (table : Sqlite.schema) (row : list obj) (x : nat)
  (column : str) (b : obj) :
  coerced_cell table row (x, column) = Ok b ->
  (x < List.length row)%nat /\ exists ctype, dict_get table column = Ok ctype.
Proof.
  unfold coerced_cell, item. cbn [fst snd].
  destruct (nth_error row x) as [v |] eqn:Hv; cbn [bind]; [| discriminate].
  destruct (dict_get table column) as [ctype |]; cbn [bind]; [| discriminate].
  intros _. split; [| exists ctype; reflexivity].
  apply nth_error_Some. rewrite Hv. discriminate.
Qed.

(** X8: when [values] returns, it gives one cell for each column, the row
    has a cell for every column, and every column is in the table. *)
Theorem values_one_cell_per_column :
  forall (table : Sqlite.schema) (row : list obj) (columns : list str) (out : list obj),
    values table row columns = Ok out ->
    List.length out = List.length columns /\
    (List.length columns <= List.length row)%nat /\
    forall column, In column columns -> exists ctype, dict_get table column = Ok ctype.
Proof.
  intros table row columns out H. rewrite values_map_res in H.
  destruct (map_res_Ok_inv _ _ _ H) as [Hl Hin]. unfold enumerate in *.
  split; [| split].
  - rewrite Hl, length_combine, length_seq. lia.
  - assert (Hall : forall j, (j < List.length columns)%nat -> (j < List.length row)%nat).
    { intros j Hj. pose proof (in_enumerate_from [] columns 0 j Hj) as Hx.
      destruct (Hin _ Hx) as [b Hb]. apply coerced_cell_Ok in Hb. apply Hb. }
    destruct (Nat.le_gt_cases (List.length columns) (List.length row)) as [Hle | Hgt];
      [exact Hle |].
    specialize (Hall _ Hgt). lia.
  - intros column Hc. destruct (In_nth _ _ [] Hc) as (j & Hj & <-).
    pose proof (in_enumerate_from [] columns 0 j Hj) as Hx.
    destruct (Hin _ Hx) as [b Hb]. apply coerced_cell_Ok in Hb. apply Hb.
Qed.



Lemma dict_get_app_old {A} (d l : list (str * A)) (key : str) (v : A) :
  dict_get d key = Ok v -> dict_get (d ++ l) key = Ok v.
Proof.
  induction d as [| [k x] d IH]; cbn [app dict_get]; [discriminate |].
  destruct (str_eqb k key); [trivial | exact IH].
Qed.

(** X10: whatever its outcome, [create] leaves the stored rows as they
    were, and a table that exists keeps the columns it has, also under a
    [create] of the same name with other columns. *)
Theorem create_keeps_rows_and_tables :
  forall (table : Sqlite.schema) (name : str) (w : world),
    Sqlite.rows (db (fst (create table name w))) = Sqlite.rows (db w) /\
    forall (known : str) (fields : Sqlite.schema),
      Sqlite.lookup_table (db w) known = Some fields ->
      Sqlite.lookup_table (db (fst (create table name w))) known = Some fields.
Proof.
  intros table name w.
  unfold create, try_except, db_execute, bindM, print, emit, lift.
  cbn [str_plus_exn].
  destruct (Sqlite.execute (db w) _) as [c | e] eqn:He; cbn [fst db].
  - unfold Sqlite.execute in He.
    destruct (Sqlite.closed (db w)); [discriminate |].
    destruct table as [| f table]; [discriminate |].
    destruct (Sqlite.lookup_table (db w) name).
    + injection He as <-. split; [reflexivity | trivial].
    + destruct (Sqlite.has_duplicate _); [discriminate |].
      injection He as <-. split; [reflexivity |].
      intros known fields. unfold Sqlite.lookup_table. cbn [Sqlite.tables].
      destruct (dict_get (Sqlite.tables (db w)) known) as [x |] eqn:Hx; [| discriminate].
      rewrite (dict_get_app_old _ _ _ _ Hx). trivial.
  - split; [reflexivity | trivial].
Qed.

(** ** Further properties: [read] *)

Lemma startswith_app_nonempty (a b p : str) :
  truthy a = true -> truthy p = true -> List.length p = 1%nat ->
  startswith (a ++ b) p = startswith a p.
Proof.
  intros Ha Hp Hl. destruct a as [| c a]; [discriminate Ha |].
  destruct p as [| d [| d' p]]; [discriminate Hp | | discriminate Hl].
  cbn [app startswith]. destruct (a ++ b), a; reflexivity.
Qed.

(** X11: for an identifier and a directory that are not empty, the
    identifier not starting and the directory not ending with a slash,
    [read] looks for the file [articles/<uid>.json] under the directory; an
    identifier that starts with a slash is taken as a path of its own, so
    what [read] returns for it does not depend on the directory. *)
Theorem read_looks_under_articles :
  (forall directory uid : str,
     truthy uid = true -> startswith uid (lit "/") = false ->
     truthy directory = true -> startswith (rev directory) (lit "/") = false ->
     path_join directory [lit "articles"; uid ++ lit ".json"] =
       directory ++ lit "/articles/" ++ uid ++ lit ".json" /\
     (fs (directory ++ lit "/articles/" ++ uid ++ lit ".json") = None ->
      read directory uid = Ok [])) /\
  (forall directory directory' uid : str,
     startswith uid (lit "/") = true ->
     read directory uid = read directory' uid).
Proof.
  split.
  - intros directory uid Hu Hs Hd He.
    assert (Hp : path_join directory [lit "articles"; uid ++ lit ".json"] =
                 directory ++ lit "/articles/" ++ uid ++ lit ".json").
    { unfold path_join. cbn [fold_left]. unfold path_join2 at 2.
      replace (startswith (lit "articles") (lit "/")) with false by reflexivity.
      rewrite Hd, He. cbn [negb orb].
      unfold path_join2.
      rewrite (startswith_app_nonempty uid (lit ".json") (lit "/") Hu eq_refl eq_refl), Hs.
      replace (truthy (directory ++ lit "/" ++ lit "articles")) with true
        by (destruct directory; reflexivity).
      replace (rev (directory ++ lit "/" ++ lit "articles"))
        with (lit "selcitra/" ++ rev directory)
        by (rewrite rev_app_distr; reflexivity).
      cbn [negb orb]. replace (startswith (lit "selcitra/" ++ rev directory) (lit "/"))
        with false by reflexivity.
      rewrite <- !app_assoc. reflexivity. }
    split; [exact Hp |].
    intros Hf. unfold read. rewrite Hu, Hp, Hf. reflexivity.
  - intros directory directory' uid Hs.
    assert (Hu : truthy uid = true) by (destruct uid; [discriminate Hs | reflexivity]).
    assert (Hp : forall d, path_join d [lit "articles"; uid ++ lit ".json"] =
                           uid ++ lit ".json").
    { intros d. unfold path_join. cbn [fold_left]. unfold path_join2 at 1.
      rewrite (startswith_app_nonempty uid (lit ".json") (lit "/") Hu eq_refl eq_refl), Hs.
      reflexivity. }
    unfold read. rewrite Hu, !Hp. reflexivity.
Qed.

Lemma subscript_raises (o : obj) (key : str) (e : exn) :
  subscript o key = Raise e -> e = KeyError \/ e = TypeError.
Proof.
  destruct o; cbn [subscript]; intros H;
    try (injection H as <-; right; reflexivity).
  left. apply (dict_get_raises _ _ _ H).
Qed.

Lemma map_res_raises {A B} (f : A -> res B) (P : exn -> Prop) (l : list A) (e : exn) :
  (forall a e, f a = Raise e -> P e) -> map_res f l = Raise e -> P e.
Proof.
  intros Hf. induction l as [| a l IH]; cbn [map_res]; [discriminate |].
  destruct (f a) as [b |] eqn:Hb; cbn [bind].
  - destruct (map_res f l); cbn [bind]; [discriminate | exact IH].
  - intros H. injection H as <-. apply (Hf a _ Hb).
Qed.

(** X12: [read] raises only when the side-car file exists: it raises what
    the decoder raises on the file or, for a decoded document of another
    structure than it expects, [KeyError] or [TypeError]; a document that is
    no JSON object gives [TypeError], one without [body_text] gives
    [KeyError]. *)
Theorem read_raises_only_on_existing_file :
  forall (directory uid : str),
    (forall e : exn,
       read directory uid = Raise e ->
       exists content,
         fs (path_join directory [lit "articles"; uid ++ lit ".json"]) = Some content /\
         (content = Raise e \/
          exists data, content = Ok data /\ (e = KeyError \/ e = TypeError))) /\
    (forall data : obj,
       truthy uid = true ->
       fs (path_join directory [lit "articles"; uid ++ lit ".json"]) = Some (Ok data) ->
       match data with
       | PyDict m =>
           (forall v, dict_get m (lit "body_text") <> Ok v) ->
           read directory uid = Raise KeyError
       | _ => read directory uid = Raise TypeError
       end).
Proof.
  intros directory uid. split.
  - intros e. unfold read. destruct (truthy uid); [| discriminate].
    destruct (fs _) as [content |]; [| discriminate].
    intros H. exists content. split; [reflexivity |].
    destruct content as [data | e']; cbn [bind] in H.
    + right. exists data. split; [reflexivity |].
      destruct (subscript data (lit "body_text")) as [body |] eqn:Hs; cbn [bind] in H.
      * destruct (iterate body) as [rows |] eqn:Hi; cbn [bind] in H.
        -- apply (map_res_raises (fun row => subscript row (lit "text"))
                    (fun e => e = KeyError \/ e = TypeError) rows e); [| exact H].
           intros a e0. apply subscript_raises.
        -- injection H as <-. right. destruct body; try discriminate Hi;
             cbn [iterate] in Hi; injection Hi as <-; reflexivity.
      * injection H as <-. apply (subscript_raises _ _ _ Hs).
    + left. injection H as <-. reflexivity.
  - intros data Hu Hf. unfold read. rewrite Hu, Hf. cbn [bind].
    destruct data; try reflexivity.
    intros Hm. cbn [subscript].
    destruct (dict_get m (lit "body_text")) as [v |] eqn:Hg.
    + exfalso. apply (Hm v). reflexivity.
    + rewrite (dict_get_raises _ _ _ Hg). reflexivity.
Qed.

(** ** Further properties: the whole run *)

Lemma prepare_Ok_iff (directory : str) (row : metadata) :
  (exists d, prepare directory row = Ok d) <-> processable directory row.
Proof.
  split.
  - intros [d H]. destruct (prepare_inv _ _ _ H) as (body & date & Hi & _ & Hr & Hs & Ht & _).
    exists (d_uid d), body, (d_tags d). rewrite <- Hs. auto.
  - intros (uid & body & tags & Hi & Hr & Ht). unfold prepare.
    rewrite Hi. cbn [bind]. destruct (getDate_returns row) as [date ->]. cbn [bind].
    rewrite Hr. cbn [bind]. rewrite Ht. cbn [bind]. eexists. reflexivity.
Qed.

Lemma counters_after_Ok (directory : str) (rows : list metadata) :
  forall st st' : Z * Z,
    counters_after directory rows st = Ok st' ->
    Forall (processable directory) rows /\
    fst st' = (fst st + Z.of_nat (List.length rows))%Z.
Proof.
  induction rows as [| row rows IH]; intros st st' H; cbn [counters_after] in H.
  - injection H as <-. split; [constructor | cbn; lia].
  - destruct (prepare directory row) as [d |] eqn:Hp; cbn [bind] in H; [| discriminate].
    destruct (IH _ _ H) as [Hall Hfst]. split.
    + constructor; [| exact Hall]. apply prepare_Ok_iff. exists d. exact Hp.
    + rewrite Hfst. cbn [fst List.length]. lia.
Qed.

Lemma counters_after_returns (directory : str) (rows : list metadata) :
  Forall (processable directory) rows ->
  forall st : Z * Z, exists st', counters_after directory rows st = Ok st'.
Proof.
  induction 1 as [| row rows Hrow _ IH]; intros st; cbn [counters_after].
  - exists st. reflexivity.
  - apply prepare_Ok_iff in Hrow. destruct Hrow as [d ->]. cbn [bind]. apply IH.
Qed.

Lemma run_returns (directory : str) (rows : list metadata) :
  Forall (processable directory) rows -> snd (run directory rows start) = Ok tt.
Proof.
  intros Hall. rewrite run_eq. cbv zeta.
  destruct (counters_after_returns _ _ Hall (0, 0)%Z) as [st ->]. reflexivity.
Qed.

(** X13: [run] returns exactly when the loop gets through every row of
    [metadata.csv]; the store is then committed and closed, and the last
    line printed gives as total the number of metadata rows, whether their
    articles were stored or rejected. *)
Theorem run_returns_iff_rows_processable :
  forall (directory : str) (rows : list metadata),
    (snd (run directory rows start) = Ok tt <-> Forall (processable directory) rows) /\
    (snd (run directory rows start) = Ok tt ->
     Sqlite.committed (db (fst (run directory rows start))) = true /\
     Sqlite.closed (db (fst (run directory rows start))) = true /\
     last (stdout (fst (run directory rows start))) (Printed []) =
       Printed (lit "Total rows inserted: " ++
                str_of_int (Z.of_nat (List.length rows)))).
Proof.
  intros directory rows. rewrite run_eq. cbv zeta.
  destruct (counters_after directory rows (0, 0)%Z) as [st | e] eqn:Hc; cbn [fst snd].
  - destruct (counters_after_Ok _ _ _ _ Hc) as [Hall Hfst]. cbn [fst] in Hfst.
    split; [split; [intros _; exact Hall | reflexivity] |].
    intros _. unfold finished. cbn [db stdout Sqlite.committed Sqlite.closed].
    split; [reflexivity |]. split; [reflexivity |].
    rewrite last_last, Hfst. reflexivity.
  - split; [| discriminate].
    split; [discriminate |].
    intros Hall. destruct (counters_after_returns _ _ Hall (0, 0)%Z) as [st' Hst].
    rewrite Hst in Hc. discriminate.
Qed.

Lemma article_ids_app (a b : list Sqlite.entry) :
  article_ids (a ++ b) = article_ids a ++ article_ids b.
Proof. unfold article_ids. rewrite filter_app. apply map_app. Qed.

Lemma article_ids_section_entries (uid : str) (tags : obj) (sections : list obj) :
  forall sid, article_ids (section_entries sid uid tags sections) = [].
Proof.
  induction sections as [| text sections IH]; intros sid; [reflexivity |].
  cbn [section_entries]. rewrite article_ids_app, IH, app_nil_r.
  destruct (Sqlite.bind_errors _); reflexivity.
Qed.

Lemma key_eqb_str (a : obj) (uid : str) :
  Sqlite.key_eqb a (PyStr uid) = true <-> a = PyStr uid.
Proof.
  split.
  - destruct a; cbn [Sqlite.key_eqb]; try discriminate.
    intros H. apply str_eqb_eq in H. subst. reflexivity.
  - intros ->. cbn [Sqlite.key_eqb]. apply str_eqb_refl.
Qed.

Lemma has_article_iff (stored : list Sqlite.entry) (uid : str) :
  has_article stored uid = true <-> In (PyStr uid) (article_ids stored).
Proof.
  unfold has_article, Sqlite.key_taken, article_ids.
  rewrite existsb_exists, in_map_iff. split.
  - intros (e & He & H). apply andb_true_iff in H. destruct H as [Hn Hk].
    apply key_eqb_str in Hk. exists e. split; [exact Hk |].
    apply filter_In. split; assumption.
  - intros (e & Hk & He). apply filter_In in He. destruct He as [He Hn].
    exists e. split; [exact He |]. rewrite Hn. cbn [andb].
    apply key_eqb_str. exact Hk.
Qed.

Lemma article_ids_draft (directory : str) (row : metadata) (d : draft)
  (stored : list Sqlite.entry) (sid : Z) :
  prepare directory row = Ok d ->
  article_ids (draft_entries stored sid d) =
  if has_article stored (d_uid d) then [] else [PyStr (d_uid d)].
Proof.
  intros H. destruct (prepare_inv _ _ _ H) as (body & date & _ & _ & _ & _ & _ & Ha).
  unfold draft_entries. rewrite article_ids_app, article_ids_section_entries, app_nil_r.
  destruct (has_article stored (d_uid d)); [reflexivity |].
  rewrite Ha. reflexivity.
Qed.

Lemma NoDup_snoc {A} (l : list A) (x : A) : NoDup l -> ~ In x l -> NoDup (l ++ [x]).
Proof.
  intros Hl Hx. apply NoDup_app; [exact Hl | repeat constructor; intros [] | ].
  intros a Ha [<- | []]. apply Hx, Ha.
Qed.

Lemma NoDup_article_ids_draft (directory : str) (row : metadata) (d : draft)
  (stored : list Sqlite.entry) (sid : Z) :
  prepare directory row = Ok d ->
  NoDup (article_ids stored) ->
  NoDup (article_ids (stored ++ draft_entries stored sid d)).
Proof.
  intros Hp Hn. rewrite article_ids_app, (article_ids_draft _ _ _ _ _ Hp).
  destruct (has_article stored (d_uid d)) eqn:Hh.
  - rewrite app_nil_r. exact Hn.
  - apply NoDup_snoc; [exact Hn |]. intros Hin. apply has_article_iff in Hin.
    rewrite Hin in Hh. discriminate.
Qed.

Lemma NoDup_stored_after (directory : str) (rows : list metadata) :
  forall (stored : list Sqlite.entry) (sid : Z),
    NoDup (article_ids stored) ->
    NoDup (article_ids (stored_after directory rows stored sid)).
Proof.
  induction rows as [| row rows IH]; intros stored sid H; cbn [stored_after].
  - exact H.
  - destruct (prepare directory row) as [d |] eqn:Hp; [| exact H].
    apply IH. apply (NoDup_article_ids_draft _ _ _ _ _ Hp H).
Qed.

(** X14: whatever the rows of [metadata.csv] and however the run ends, no
    two rows of [articles] in the store have the same identifier. *)
Theorem run_article_ids_unique :
  forall (directory : str) (rows : list metadata),
    NoDup (article_ids (Sqlite.rows (db (fst (run directory rows start))))).
Proof.
  intros directory rows. rewrite rows_run.
  apply NoDup_stored_after. constructor.
Qed.

Lemma stored_after_extends (directory : str) (rows : list metadata) :
  forall (stored : list Sqlite.entry) (sid : Z),
    exists more, stored_after directory rows stored sid = stored ++ more.
Proof.
  induction rows as [| row rows IH]; intros stored sid; cbn [stored_after].
  - exists []. rewrite app_nil_r. reflexivity.
  - destruct (prepare directory row) as [d |]; [| exists []; rewrite app_nil_r; reflexivity].
    destruct (IH (stored ++ draft_entries stored sid d)
                 (sid + Z.of_nat (List.length (d_sections d)))%Z) as [more ->].
    rewrite <- app_assoc. eexists. reflexivity.
Qed.



Lemma stored_after_keeps_article (directory : str) (rows : list metadata) :
  forall (stored : list Sqlite.entry) (sid : Z) (o : obj),
    In o (article_ids stored) ->
    In o (article_ids (stored_after directory rows stored sid)).
Proof.
  intros stored sid o H. destruct (stored_after_extends directory rows stored sid) as [more ->].
  rewrite article_ids_app. apply in_or_app. left. exact H.
Qed.

Lemma stored_after_has_ids (directory : str) (rows : list metadata) :
  Forall (processable directory) rows ->
  forall (stored : list Sqlite.entry) (sid : Z) (row : metadata) (uid : str),
    In row rows -> getId row = Ok uid ->
    In (PyStr uid) (article_ids (stored_after directory rows stored sid)).
Proof.
  induction 1 as [| r rows Hr _ IH]; intros stored sid row uid Hin Hid; [destruct Hin |].
  cbn [stored_after]. apply prepare_Ok_iff in Hr. destruct Hr as [d Hp]. rewrite Hp.
  destruct Hin as [-> | Hin]; [| apply (IH _ _ row uid Hin Hid)].
  apply stored_after_keeps_article.
  destruct (prepare_inv _ _ _ Hp) as (body & date & Hi & _).
  rewrite Hid in Hi. injection Hi as ->.
  rewrite article_ids_app, (article_ids_draft _ _ _ _ _ Hp).
  apply in_or_app.
  destruct (has_article stored (d_uid d)) eqn:Hh.
  - left. apply has_article_iff. exact Hh.
  - right. left. reflexivity.
Qed.

(** X16: when the loop gets through every row, the identifier of every row
    of [metadata.csv] is the identifier of a row of [articles] in the store,
    also for a row whose own article was rejected. *)
Theorem run_stores_every_identifier :
  forall (directory : str) (rows : list metadata) (row : metadata) (uid : str),
    Forall (processable directory) rows ->
    In row rows -> getId row = Ok uid ->
    In (PyStr uid) (article_ids (Sqlite.rows (db (fst (run directory rows start))))).
Proof.
  intros directory rows row uid Hall Hin Hid. rewrite rows_run.
  apply (stored_after_has_ids directory rows Hall [] 0%Z row uid Hin Hid).
Qed.

Lemma article_reports_of_sections (uid : str) (tags : obj) (sections : list obj) :
  forall sid,
    filter is_article_report (section_reports sid uid tags sections) = [].
Proof.
  induction sections as [| text sections IH]; intros sid; [reflexivity |].
  cbn [section_reports]. rewrite filter_app, IH.
  destruct (Sqlite.bind_errors _); reflexivity.
Qed.

Lemma accounts_after_rows (directory : str) (rows : list metadata) :
  forall (st st' : Z * Z) (w : world),
    counters_after directory rows st = Ok st' ->
    (List.length (article_ids (Sqlite.rows (db (after_rows directory rows st w)))) +
     List.length (filter is_article_report (stdout (after_rows directory rows st w))))%nat =
    (List.length (article_ids (Sqlite.rows (db w))) +
     List.length (filter is_article_report (stdout w)) + List.length rows)%nat /\
    (List.length rows +
     (List.length (sections_of (Sqlite.rows (db w))) +
      List.length (filter is_section_report (stdout w))) <=
     List.length (sections_of (Sqlite.rows (db (after_rows directory rows st w)))) +
     List.length (filter is_section_report (stdout (after_rows directory rows st w))))%nat.
Proof.
  induction rows as [| row rows IH]; intros st st' w H;
    cbn [counters_after after_rows List.length] in *.
  - split; lia.
  - destruct (prepare directory row) as [d |] eqn:Hp; cbn [bind] in H; [| discriminate].
    destruct (IH _ _ (after_row (fst st) (snd st) d w) H) as [IH1 IH2].
    rewrite attempts_after_row in IH2.
    rewrite stdout_after_row_eq, rows_after_row in IH1.
    rewrite article_ids_app, (article_ids_draft _ _ _ _ _ Hp), !filter_app,
      article_reports_of_sections, !length_app in IH1.
    destruct (prepare_inv _ _ _ Hp) as (body & date & _ & _ & _ & Hs & _).
    assert (Hlen : List.length (d_sections d) = S (List.length body))
      by (rewrite Hs; reflexivity).
    destruct (has_article (Sqlite.rows (db w)) (d_uid d));
      destruct ((fst st + 1) mod 1000 =? 0)%Z;
      cbn [filter is_article_report List.length] in IH1; split; lia.
Qed.

(** X17: when [run] returns, every row of [metadata.csv] is accounted for:
    the number of rows equals the number of stored articles plus the number
    of refused articles reported on the standard output, a report of an
    article being one whose key is an identifier; and the sections stored
    and the refused sections reported are together at least one for each
    row. *)
Theorem run_accounts_for_every_row :
  forall (directory : str) (rows : list metadata),
    snd (run directory rows start) = Ok tt ->
    List.length rows =
      (List.length (article_ids (Sqlite.rows (db (fst (run directory rows start))))) +
       List.length (filter is_article_report
                      (stdout (fst (run directory rows start)))))%nat /\
    (List.length rows <=
     List.length (sections_of (Sqlite.rows (db (fst (run directory rows start))))) +
     List.length (filter is_section_report
                    (stdout (fst (run directory rows start)))))%nat.
Proof.
  intros directory rows. rewrite run_eq. cbv zeta.
  destruct (counters_after directory rows (0, 0)%Z) as [st | e] eqn:Hc; cbn [fst snd];
    [| discriminate].
  intros _.
  destruct (accounts_after_rows directory rows _ _ (opened directory) Hc) as [H1 H2].
  unfold finished. cbn [db stdout Sqlite.rows].
  rewrite !filter_app, !length_app.
  cbn [filter is_article_report is_section_report List.length].
  cbn [opened db stdout Sqlite.rows article_ids sections_of filter is_article_report
       is_section_report map List.length] in H1, H2.
  split; lia.
Qed.

(** ** Further properties: the progress lines of [run] *)

Lemma progress_step (i : Z) :
  ((i + 1) / 1000 - i / 1000 = if ((i + 1) mod 1000 =? 0) then 1 else 0)%Z.
Proof.
  destruct ((i + 1) mod 1000 =? 0)%Z eqn:E;
    [apply Z.eqb_eq in E | apply Z.eqb_neq in E];
    Z.div_mod_to_equations; lia.
Qed.

Lemma printed_of_sections (uid : str) (tags : obj) (sections : list obj) :
  forall sid,
    filter (fun e => negb (is_report e)) (section_reports sid uid tags sections) = [].
Proof.
  induction sections as [| text sections IH]; intros sid; [reflexivity |].
  cbn [section_reports]. rewrite filter_app, IH.
  destruct (Sqlite.bind_errors _); reflexivity.
Qed.

Lemma progress_after_rows (directory : str) (rows : list metadata) :
  forall (st st' : Z * Z) (w : world),
    counters_after directory rows st = Ok st' ->
    (forall e, In e (stdout w) -> In e (stdout (after_rows directory rows st w))) /\
    (forall n : Z,
       (fst st < n <= fst st + Z.of_nat (List.length rows))%Z -> (n mod 1000 = 0)%Z ->
       In (Printed (lit "Inserted " ++ str_of_int n ++ lit " articles"))
          (stdout (after_rows directory rows st w))) /\
    (Z.of_nat (List.length (filter (fun e => negb (is_report e))
                              (stdout (after_rows directory rows st w)))) =
     Z.of_nat (List.length (filter (fun e => negb (is_report e)) (stdout w))) +
     (fst st + Z.of_nat (List.length rows)) / 1000 - fst st / 1000)%Z.
Proof.
  induction rows as [| row rows IH]; intros st st' w H;
    cbn [counters_after after_rows] in *.
  - split; [trivial |]. split; [cbn [List.length]; intros n Hn; lia |].
    cbn [List.length]. replace (fst st + Z.of_nat 0)%Z with (fst st) by lia. lia.
  - destruct (prepare directory row) as [d |] eqn:Hp; cbn [bind] in H; [| discriminate].
    destruct (IH _ _ (after_row (fst st) (snd st) d w) H) as (IH1 & IH2 & IH3).
    cbn [fst] in IH2, IH3.
    assert (Hout := stdout_after_row_eq (fst st) (snd st) d w).
    split; [| split].
    + intros e He. apply IH1. rewrite Hout. apply in_or_app. left. exact He.
    + intros n Hn Hm. cbn [List.length] in Hn.
      destruct (Z.eq_dec n (fst st + 1)) as [-> | Hne].
      * apply IH1. rewrite Hout.
        apply Z.eqb_eq in Hm. rewrite Hm.
        apply in_or_app. right. apply in_or_app. right.
        apply in_or_app. left. left. reflexivity.
      * apply IH2; [lia | exact Hm].
    + rewrite IH3, Hout, !filter_app, printed_of_sections, !length_app.
      pose proof (progress_step (fst st)) as Hstep.
      cbn [List.length].
      replace (fst st + Z.of_nat (S (List.length rows)))%Z
        with (fst st + 1 + Z.of_nat (List.length rows))%Z by lia.
      destruct ((fst st + 1) mod 1000 =? 0)%Z;
        destruct (has_article (Sqlite.rows (db w)) (d_uid d));
        cbn [filter is_report negb List.length]; lia.
Qed.

(** X18: when [run] returns, it has printed the line
    [Inserted n articles] for every multiple [n] of 1000 up to the number of
    metadata rows, and the lines it printed are the opening line, one
    progress line for each full thousand of rows, and the total. *)
Theorem run_prints_progress_every_1000_rows :
  forall (directory : str) (rows : list metadata),
    snd (run directory rows start) = Ok tt ->
    (forall n : Z,
       (0 < n <= Z.of_nat (List.length rows))%Z -> (n mod 1000 = 0)%Z ->
       In (Printed (lit "Inserted " ++ str_of_int n ++ lit " articles"))
          (stdout (fst (run directory rows start)))) /\
    List.length (filter (fun e => negb (is_report e))
                   (stdout (fst (run directory rows start)))) =
      (2 + List.length rows / 1000)%nat.
Proof.
  intros directory rows. rewrite run_eq. cbv zeta.
  destruct (counters_after directory rows (0, 0)%Z) as [st | e] eqn:Hc; cbn [fst snd];
    [| discriminate].
  intros _.
  destruct (progress_after_rows directory rows _ _ (opened directory) Hc) as (_ & H2 & H3).
  cbn [fst] in H2, H3. unfold finished. cbn [stdout]. split.
  - intros n Hn Hm. apply in_or_app. left. apply H2; [lia | exact Hm].
  - rewrite filter_app, length_app. cbn [filter is_report negb List.length].
    cbn [opened stdout filter is_report negb List.length] in H3.
    rewrite Z.add_0_l in H3. change (0 / 1000)%Z with 0%Z in H3.
    apply Nat2Z.inj. rewrite !Nat2Z.inj_add, Nat2Z.inj_div, H3.
    change (Z.of_nat 1000) with 1000%Z. lia.
Qed.

End Execute.

(** ** Checks of the library models *)

Example sha1_abc :
  Sha1.hexdigest (lit "abc") = lit "a9993e364706816aba3e25717850c26c9cd0d89d".
Proof. vm_compute. reflexivity. Qed.

Example sha1_empty :
  Sha1.hexdigest [] = lit "da39a3ee5e6b4b0d3255bfef95601890afd80709".
Proof. vm_compute. reflexivity. Qed.

Example utf8_mixed :
  Utf8.encode [110; 97; 239; 118; 101; 32; 30740; 31350; 32; 128512] =
  Ok [110; 97; 195; 175; 118; 101; 32; 231; 160; 148; 231; 169; 182; 32;
      240; 159; 152; 128].
Proof. vm_compute. reflexivity. Qed.

Example sha1_utf8_mixed :
  fmap Sha1.hexdigest
       (Utf8.encode [110; 97; 239; 118; 101; 32; 30740; 31350; 32; 128512]) =
  Ok (lit "681fb47fd3d81b559be480ff3907350cb3f6b186").
Proof. vm_compute. reflexivity. Qed.

Example utf8_surrogate : Utf8.encode [97; 55357] = Raise UnicodeEncodeError.
Proof. vm_compute. reflexivity. Qed.

Example decimal_1000 : decimal 1000 = lit "1000" /\ decimal 0 = lit "0".
Proof. vm_compute. split; reflexivity. Qed.

(** ** The small corpus, run with the stand-ins *)

Notation "'demo_run'" :=
  (run Demo.unicode_lower Demo.unicode_isdigit Demo.int_of_str Demo.parse).
Notation "'demo_run_row'" :=
  (run_row Demo.unicode_lower Demo.unicode_isdigit Demo.int_of_str Demo.parse).
Notation "'demo_prepare'" :=
  (prepare Demo.unicode_lower Demo.unicode_isdigit Demo.parse).

Lemma getId_scenario :
  getId Scenario.row1 = Ok (lit "abc123") /\
  getId Scenario.row2 = Ok (lit "885480e7e4176d12bcd78170cdffd15c31b5dc03").
Proof.
  split.
  - apply (proj1 (getId_sha_or_title_digest Scenario.row1)). reflexivity.
  - destruct (getId_sha_or_title_digest Scenario.row2) as (_ & _ & _ & H).
    destruct (H eq_refl eq_refl) as (_ & _ & H'). exact H'.
Defined.

Lemma getDate_scenario :
  getDate Demo.unicode_isdigit Demo.parse Scenario.row1 =
    Ok (PyDate (mkdatetime 2020 1 1 0 0 0)) /\
  getDate Demo.unicode_isdigit Demo.parse Scenario.row2 = Ok PyNone.
Proof.
  split.
  - destruct (getDate_widens_year_and_never_raises Demo.unicode_isdigit Demo.parse
                Scenario.row1) as (_ & _ & _ & _ & H & _).
    apply H; vm_compute; reflexivity.
  - destruct (getDate_widens_year_and_never_raises Demo.unicode_isdigit Demo.parse
                Scenario.row2) as (_ & _ & _ & _ & _ & H).
    apply (H ParserError); vm_compute; reflexivity.
Defined.

Lemma getReference_scenario :
  getReference Scenario.row1 = lit "https://doi.org/10.1234/xyz" /\
  getReference Scenario.row3 = lit "doi.org/10.1/1" /\
  getReference Scenario.row2 = [].
Proof.
  split; [| split].
  - destruct (getReference_prefixes_doi Scenario.row1) as (H & _).
    apply H; vm_compute; reflexivity.
  - destruct (getReference_prefixes_doi Scenario.row3) as (_ & H & _).
    apply H. right. vm_compute. reflexivity.
  - destruct (getReference_prefixes_doi Scenario.row2) as (_ & _ & H & _).
    apply H. reflexivity.
Defined.

Lemma getAuthors_scenario :
  getAuthors Scenario.row1 = lit "Smith, J.; Doe, A." /\
  getAuthors Scenario.row2 = lit "Roe, R.".
Proof.
  split.
  - destruct (getAuthors_joins_quoted_substrings Scenario.row1) as (H & _).
    rewrite H; vm_compute; reflexivity.
  - destruct (getAuthors_joins_quoted_substrings Scenario.row2) as (_ & H & _).
    apply H. vm_compute. reflexivity.
Defined.

Lemma values_scenario :
  values Demo.int_of_str SECTIONS [PyNone; PyStr (lit "abc123"); PyStr []; PyNone]
    (map fst SECTIONS) =
    Ok [PyInt 0; PyStr (lit "abc123"); PyStr []; PyNone] /\
  values Demo.int_of_str [(lit "Pages", lit "INTEGER"); (lit "Open", lit "BOOLEAN")]
    [PyStr (lit "12"); PyStr (lit "TRUE")] [lit "Pages"; lit "Open"] =
    Ok [PyInt 12; PyInt 1] /\
  coerce Demo.int_of_str (lit "INTEGER PRIMARY KEY") (PyStr []) = Ok (PyInt 0) /\
  coerce Demo.int_of_str (lit "TEXT") PyNone = Ok PyNone.
Proof.
  split; [| split; [| split]].
  - destruct (values_coerces_by_descriptor Demo.int_of_str SECTIONS
                [PyNone; PyStr (lit "abc123"); PyStr []; PyNone] (map fst SECTIONS))
      as (H & _).
    rewrite H. vm_compute. reflexivity.
  - destruct (values_coerces_by_descriptor Demo.int_of_str
                [(lit "Pages", lit "INTEGER"); (lit "Open", lit "BOOLEAN")]
                [PyStr (lit "12"); PyStr (lit "TRUE")] [lit "Pages"; lit "Open"])
      as (H & _).
    rewrite H. vm_compute. reflexivity.
  - destruct (values_coerces_by_descriptor Demo.int_of_str [] [] []) as (_ & H & _).
    apply H; vm_compute; reflexivity.
  - destruct (values_coerces_by_descriptor Demo.int_of_str [] [] [])
      as (_ & _ & _ & _ & _ & H).
    apply H; [vm_compute; reflexivity | discriminate].
Defined.

Lemma run_scenario_numbers_sections :
  section_ids
    (Sqlite.rows (db (fst (demo_run Scenario.fs Scenario.directory
                             [Scenario.row1; Scenario.row2] start)))) =
    [PyInt 0; PyInt 1; PyInt 2; PyInt 3] /\
  (exists uid,
     Sqlite.cell
       (snd (nth 4 (Sqlite.rows (db (fst (demo_run Scenario.fs Scenario.directory
                                            [Scenario.row1; Scenario.row2] start))))
                 ([], [])))
       (lit "Article") = PyStr uid /\
     has_article
       (firstn 4 (Sqlite.rows (db (fst (demo_run Scenario.fs Scenario.directory
                                          [Scenario.row1; Scenario.row2] start)))))
       uid = true) /\
  In (section_entry 2 (lit "885480e7e4176d12bcd78170cdffd15c31b5dc03")
        (PyStr (lit "Methods.")) (PyStr (lit "COVID-19")))
     (section_entries 0 (lit "885480e7e4176d12bcd78170cdffd15c31b5dc03")
        (PyStr (lit "COVID-19"))
        [PyStr (lit "COVID Study"); PyStr (lit "On SARS-CoV-2 " ++ [55357]);
         PyStr (lit "Methods.")]).
Proof.
  destruct (run_numbers_sections_after_their_article
              Demo.unicode_lower Demo.unicode_isdigit Demo.int_of_str Demo.parse
              Scenario.fs Scenario.directory [Scenario.row1; Scenario.row2])
    as (_ & _ & Hids & Href & _ & Hin & _).
  split; [| split].
  - rewrite Hids; vm_compute; reflexivity.
  - apply (Href _ _
             (skipn 5 (Sqlite.rows (db (fst (demo_run Scenario.fs Scenario.directory
                                               [Scenario.row1; Scenario.row2] start))))));
      vm_compute; reflexivity.
  - apply Hin. exists 2%nat, (PyStr (lit "Methods.")).
    split; [reflexivity |]. split; [vm_compute; reflexivity | reflexivity].
Defined.

Lemma surrogate_paragraph_leaves_a_gap :
  snd (demo_run Scenario.fs_surrogate Scenario.directory [Scenario.row2] start) = Ok tt /\
  section_ids
    (Sqlite.rows (db (fst (demo_run Scenario.fs_surrogate Scenario.directory
                             [Scenario.row2] start)))) =
    [PyInt 0; PyInt 2] /\
  counting
    (List.length
       (sections_of
          (Sqlite.rows (db (fst (demo_run Scenario.fs_surrogate Scenario.directory
                                   [Scenario.row2] start)))))) =
    [PyInt 0; PyInt 1] /\
  filter is_section_report
    (stdout (fst (demo_run Scenario.fs_surrogate Scenario.directory
                    [Scenario.row2] start))) =
    [ErrorInserting (PyInt 1) UnicodeEncodeError].
Proof. repeat split; vm_compute; reflexivity. Qed.

Lemma malformed_sidecar_stops_scenario_run :
  demo_run Scenario.fs_malformed Scenario.directory
    [Scenario.row1; Scenario.row2] start =
  (opened Scenario.directory, Raise JSONDecodeError) /\
  Sqlite.rows (db (opened Scenario.directory)) = [] /\
  Sqlite.committed (db (opened Scenario.directory)) = false.
Proof. split; [vm_compute; reflexivity | split; reflexivity]. Qed.

Lemma malformed_sidecar_scenario :
  read (fun _ => Some (Raise JSONDecodeError)) Scenario.directory [] = Ok [] /\
  read Scenario.fs Scenario.directory (lit "abc123") = Ok [] /\
  read Scenario.fs_malformed Scenario.directory (lit "abc123") = Raise JSONDecodeError /\
  snd (demo_run Scenario.fs_malformed Scenario.directory
         [Scenario.row2; Scenario.row1; Scenario.row3] start) =
    Raise JSONDecodeError /\
  List.length
    (Sqlite.rows (db (fst (demo_run Scenario.fs_malformed Scenario.directory
                             [Scenario.row2; Scenario.row1; Scenario.row3] start)))) =
    4%nat.
Proof.
  destruct (read_missing_is_empty_and_malformed_stops_run
              Demo.unicode_lower Demo.unicode_isdigit Demo.int_of_str Demo.parse
              Scenario.fs) as (_ & Hmissing & _).
  destruct (read_missing_is_empty_and_malformed_stops_run
              Demo.unicode_lower Demo.unicode_isdigit Demo.int_of_str Demo.parse
              Scenario.fs_malformed) as (_ & _ & Hbad & Hrun).
  split.
  { apply (proj1 (read_missing_is_empty_and_malformed_stops_run
                    Demo.unicode_lower Demo.unicode_isdigit Demo.int_of_str Demo.parse
                    (fun _ => Some (Raise JSONDecodeError)))). }
  split; [apply Hmissing; vm_compute; reflexivity |].
  split; [apply Hbad; vm_compute; reflexivity |].
  assert (Hbefore : counters_after Demo.unicode_lower Demo.unicode_isdigit Demo.parse
                      Scenario.fs_malformed Scenario.directory [Scenario.row2] (0, 0)%Z =
                    Ok (1, 3)%Z) by (vm_compute; reflexivity).
  assert (Hid : getId Scenario.row1 = Ok (lit "abc123")) by (vm_compute; reflexivity).
  assert (Hread : read Scenario.fs_malformed Scenario.directory (lit "abc123") =
                  Raise JSONDecodeError) by (vm_compute; reflexivity).
  destruct (Hrun Scenario.directory [Scenario.row2] Scenario.row1 [Scenario.row3]
              (lit "abc123") JSONDecodeError (1, 3)%Z Hbefore Hid Hread)
    as (Heq & Hrows & _).
  cbn [app] in Heq. rewrite Heq. cbn [fst snd]. split; [reflexivity |].
  rewrite Hrows. vm_compute. reflexivity.
Defined.

Lemma create_scenario :
  create [] (lit "articles") start =
    (say [Printed (lit "CREATE TABLE IF NOT EXISTS articles ()")] start,
     Raise TypeError) /\
  snd (create ARTICLES (lit "articles")
         (mkworld (Sqlite.close Sqlite.empty) [])) = Raise TypeError /\
  create SECTIONS (lit "sections") (opened Scenario.directory) =
    (opened Scenario.directory, Ok tt).
Proof.
  destruct create_failure_escapes_as_TypeError as (Hagain & Hfail & _).
  split; [| split].
  - apply (Hfail [] (lit "articles") start OperationalError). vm_compute. reflexivity.
  - assert (H : Sqlite.execute (db (mkworld (Sqlite.close Sqlite.empty) []))
                  (Sqlite.CreateTableIfNotExists
                     (CREATE_TABLE (lit "articles")
                        (join (lit ", ")
                           (map (fun nc => fst nc ++ lit " " ++ snd nc) ARTICLES)))
                     (lit "articles") ARTICLES) = Raise ProgrammingError)
      by (vm_compute; reflexivity).
    rewrite (Hfail ARTICLES (lit "articles") (mkworld (Sqlite.close Sqlite.empty) [])
               ProgrammingError H).
    reflexivity.
  - apply (Hagain SECTIONS (lit "sections")
             (mkworld (Sqlite.mkconnection [(lit "articles", ARTICLES)] [] false false)
                [Printed (lit "Building articles.db from " ++ Scenario.directory)])).
    vm_compute. reflexivity.
Defined.





(** ** Further runs of the small corpus *)

Lemma scenario_processable :
  Forall (processable Demo.unicode_lower Scenario.fs Scenario.directory)
    [Scenario.row1; Scenario.row2; Scenario.row3].
Proof.
  repeat constructor.
  - exists (lit "abc123"), [], PyNone. vm_compute. repeat split.
  - exists (lit "885480e7e4176d12bcd78170cdffd15c31b5dc03"),
      [PyStr (lit "On SARS-CoV-2."); PyStr (lit "Methods.")], (PyStr (lit "COVID-19")).
    vm_compute. repeat split.
  - exists (lit "abc123"), [], (PyStr (lit "COVID-19")). vm_compute. repeat split.
Qed.

Lemma getId_identifier_shape_scenario :
  getId Scenario.row2 = Ok (lit "885480e7e4176d12bcd78170cdffd15c31b5dc03") /\
  List.length (lit "885480e7e4176d12bcd78170cdffd15c31b5dc03") = 40%nat /\
  forallb is_hex_lower (lit "885480e7e4176d12bcd78170cdffd15c31b5dc03") = true.
Proof.
  assert (H : getId Scenario.row2 = Ok (lit "885480e7e4176d12bcd78170cdffd15c31b5dc03"))
    by (vm_compute; reflexivity).
  destruct (getId_identifier_shape Scenario.row2 _ H) as (_ & _ & H3).
  split; [exact H | apply H3; reflexivity].
Defined.


Lemma getReference_idempotent_scenario :
  getReference
    (mkmetadata [] [] [] [] [] [] (lit "https://doi.org/10.1234/xyz") eq_refl) =
  getReference Scenario.row1.
Proof.
  apply getReference_idempotent. vm_compute. reflexivity.
Defined.

Lemma getAuthors_unquoted_list_scenario :
  getAuthors (mkmetadata [] [] [] [] (lit "[Smith, J., Doe, A.]") [] [] eq_refl) = [].
Proof.
  apply getAuthors_without_quoted_pair_is_empty;
    [vm_compute; reflexivity | vm_compute; reflexivity | vm_compute; lia].
Defined.

Lemma getAuthors_clean_names_scenario :
  exists names : list str,
    getAuthors Scenario.row1 = join (lit "; ") names /\
    forall g, In g names -> clean_name g.
Proof.
  apply getAuthors_joins_clean_names; vm_compute; reflexivity.
Defined.

Lemma getTags_non_text_scenario :
  getTags Demo.unicode_lower [PyStr (lit "COVID Study"); PyInt 7] = Raise AttributeError /\
  demo_run
    (fun _ => Some (Ok (PyDict [(lit "body_text",
                                 PyList [PyDict [(lit "text", PyInt 7)]])])))
    Scenario.directory [Scenario.row1; Scenario.row2] start =
  (opened Scenario.directory, Raise AttributeError).
Proof.
  destruct (getTags_raises_on_non_text
              Demo.unicode_lower Demo.unicode_isdigit Demo.int_of_str Demo.parse
              (fun _ => Some (Ok (PyDict [(lit "body_text",
                                           PyList [PyDict [(lit "text", PyInt 7)]])]))))
    as (_ & Hraise & Hrun).
  split; [apply Hraise; reflexivity |].
  apply (Hrun Scenario.directory [] Scenario.row1 [Scenario.row2] (lit "abc123")
           [PyInt 7] (0, 0)%Z); vm_compute; reflexivity.
Defined.

Lemma getTags_order_scenario :
  getTags Demo.unicode_lower [PyStr (lit "Methods."); PyStr (lit "On SARS-CoV-2.")] =
  getTags Demo.unicode_lower [PyStr (lit "On SARS-CoV-2."); PyStr (lit "Methods.")].
Proof.
  apply (proj1 (getTags_ignores_order Demo.unicode_lower)
           [lit "Methods."; lit "On SARS-CoV-2."] [lit "On SARS-CoV-2."; lit "Methods."]).
  apply perm_swap.
Defined.

Lemma values_shape_scenario :
  List.length [PyInt 0; PyStr (lit "abc123"); PyStr []; PyNone] =
    List.length (map fst SECTIONS) /\
  (List.length (map fst SECTIONS) <= 5)%nat.
Proof.
  assert (H : values Demo.int_of_str SECTIONS
                [PyNone; PyStr (lit "abc123"); PyStr []; PyNone; PyInt 9]
                (map fst SECTIONS) =
              Ok [PyInt 0; PyStr (lit "abc123"); PyStr []; PyNone])
    by (vm_compute; reflexivity).
  destruct (values_one_cell_per_column Demo.int_of_str _ _ _ _ H) as (H1 & H2 & _).
  split; [exact H1 | exact H2].
Defined.

Lemma create_other_columns_scenario :
  Sqlite.lookup_table
    (db (fst (create SECTIONS (lit "articles") (opened Scenario.directory))))
    (lit "articles") = Some ARTICLES.
Proof.
  apply (proj2 (create_keeps_rows_and_tables SECTIONS (lit "articles")
                  (opened Scenario.directory))).
  vm_compute. reflexivity.
Defined.

Lemma read_path_scenario :
  path_join Scenario.directory [lit "articles"; lit "abc123" ++ lit ".json"] =
    lit "corpus/articles/abc123.json" /\
  read Scenario.fs Scenario.directory (lit "abc123") = Ok [] /\
  read Scenario.fs Scenario.directory (lit "/tmp/x") =
  read Scenario.fs (lit "elsewhere") (lit "/tmp/x").
Proof.
  destruct (read_looks_under_articles Scenario.fs) as [Hunder Habs].
  destruct (Hunder Scenario.directory (lit "abc123")) as [Hpath Hnone];
    try (vm_compute; reflexivity).
  split; [exact Hpath |].
  split; [apply Hnone; vm_compute; reflexivity |].
  apply Habs. vm_compute. reflexivity.
Defined.

Lemma read_structure_scenario :
  read (fun _ => Some (Ok (PyList []))) Scenario.directory (lit "abc123") =
    Raise TypeError /\
  read (fun _ => Some (Ok (PyDict [(lit "abstract", PyList [])])))
    Scenario.directory (lit "abc123") = Raise KeyError.
Proof.
  split.
  - apply (proj2 (read_raises_only_on_existing_file
                    (fun _ => Some (Ok (PyList []))) Scenario.directory (lit "abc123"))
             (PyList [])); reflexivity.
  - apply (proj2 (read_raises_only_on_existing_file
                    (fun _ => Some (Ok (PyDict [(lit "abstract", PyList [])])))
                    Scenario.directory (lit "abc123"))
             (PyDict [(lit "abstract", PyList [])])); try reflexivity.
    intros v H. vm_compute in H. discriminate H.
Defined.

Lemma run_returns_scenario :
  snd (demo_run Scenario.fs Scenario.directory
         [Scenario.row1; Scenario.row2; Scenario.row3] start) = Ok tt /\
  last (stdout (fst (demo_run Scenario.fs Scenario.directory
                       [Scenario.row1; Scenario.row2; Scenario.row3] start)))
       (Printed []) = Printed (lit "Total rows inserted: 3").
Proof.
  destruct (run_returns_iff_rows_processable
              Demo.unicode_lower Demo.unicode_isdigit Demo.int_of_str Demo.parse
              Scenario.fs Scenario.directory
              [Scenario.row1; Scenario.row2; Scenario.row3]) as [Hiff Hend].
  assert (H := proj2 Hiff scenario_processable).
  split; [exact H |].
  destruct (Hend H) as (_ & _ & Hlast). exact Hlast.
Defined.

Lemma run_stores_identifier_scenario :
  In (PyStr (lit "abc123"))
     (article_ids
        (Sqlite.rows (db (fst (demo_run Scenario.fs Scenario.directory
                                 [Scenario.row1; Scenario.row2; Scenario.row3] start))))).
Proof.
  apply (run_stores_every_identifier
           Demo.unicode_lower Demo.unicode_isdigit Demo.int_of_str Demo.parse
           Scenario.fs Scenario.directory _ Scenario.row3 (lit "abc123")
           scenario_processable).
  - right. right. left. reflexivity.
  - vm_compute. reflexivity.
Defined.

Lemma run_accounts_scenario :
  3%nat =
    (List.length
       (article_ids
          (Sqlite.rows (db (fst (demo_run Scenario.fs_surrogate Scenario.directory
                                   [Scenario.row1; Scenario.row2; Scenario.row3]
                                   start))))) +
     List.length
       (filter is_article_report
          (stdout (fst (demo_run Scenario.fs_surrogate Scenario.directory
                          [Scenario.row1; Scenario.row2; Scenario.row3] start)))))%nat /\
  (3 <=
   List.length
     (sections_of
        (Sqlite.rows (db (fst (demo_run Scenario.fs_surrogate Scenario.directory
                                 [Scenario.row1; Scenario.row2; Scenario.row3]
                                 start))))) +
   List.length
     (filter is_section_report
        (stdout (fst (demo_run Scenario.fs_surrogate Scenario.directory
                        [Scenario.row1; Scenario.row2; Scenario.row3] start)))))%nat.
Proof.
  assert (H : snd (demo_run Scenario.fs_surrogate Scenario.directory
                     [Scenario.row1; Scenario.row2; Scenario.row3] start) = Ok tt)
    by (vm_compute; reflexivity).
  exact (run_accounts_for_every_row
           Demo.unicode_lower Demo.unicode_isdigit Demo.int_of_str Demo.parse
           Scenario.fs_surrogate Scenario.directory
           [Scenario.row1; Scenario.row2; Scenario.row3] H).
Defined.

Lemma run_progress_scenario :
  In (Printed (lit "Inserted 1000 articles"))
     (stdout (fst (demo_run Scenario.fs Scenario.directory
                     (repeat Scenario.row1 1000) start))).
Proof.
  assert (Hall : Forall (processable Demo.unicode_lower Scenario.fs Scenario.directory)
                   (repeat Scenario.row1 1000)).
  { apply Forall_forall. intros row Hrow. apply repeat_spec in Hrow. subst row.
    exact (Forall_inv scenario_processable). }
  assert (H := run_returns Demo.unicode_lower Demo.unicode_isdigit Demo.int_of_str
                 Demo.parse Scenario.fs Scenario.directory _ Hall).
  apply (proj1 (run_prints_progress_every_1000_rows
                  Demo.unicode_lower Demo.unicode_isdigit Demo.int_of_str Demo.parse
                  Scenario.fs Scenario.directory (repeat Scenario.row1 1000) H)
           1000%Z).
  - rewrite repeat_length. lia.
  - reflexivity.
Defined.

